(** * microbiomeHD, [src/util/FileIO.py]: a shallow embedding and its properties

    The module reads a dataset registry, loads the clean OTU and metadata
    tables of each dataset, and splits the samples of a dataset into a
    control group and a disease group.  Python dictionaries are finite maps
    ([gmap]), [set(...)] is a finite set ([gset]) whose listing order is
    left unspecified, exceptions are values of the type [exn], and what
    [print] writes is kept in a log that is threaded through the code. *)

From stdpp Require Import base option list strings countable gmap sets.
From Stdlib Require Import Ascii ZArith QArith.Qcanon.

Local Close Scope Qc_scope.
Local Open Scope string_scope.
Local Open Scope list_scope.

(** ** Exceptions and the two effects of the module *)

Inductive exn : Type :=
  | ValueError (msg : string)
  | KeyError (key : string)
  | IndexError
  | TypeError
  | OSError (path : string).

Inductive result (A : Type) : Type :=
  | Ok (a : A)
  | Raise (e : exn).
Arguments Ok {A} a.
Arguments Raise {A} e.

Definition result_bind {A B} (f : A → result B) (m : result A) : result B :=
  match m with
  | Ok a => f a
  | Raise e => Raise e
  end.

#[global] Instance result_ret : MRet result := λ A a, Ok a.
#[global] Instance result_mbind : MBind result := λ A B f m, result_bind f m.

(** A computation that may print: it takes what has been printed so far and
    returns it extended, next to its outcome.  What was printed before an
    exception stays printed. *)
Definition io (A : Type) : Type := list string → result A * list string.

Definition io_bind {A B} (f : A → io B) (m : io A) : io B :=
  λ out, match m out with
         | (Ok a, out') => f a out'
         | (Raise e, out') => (Raise e, out')
         end.

#[global] Instance io_ret : MRet io := λ A a out, (Ok a, out).
#[global] Instance io_mbind : MBind io := λ A B f m, io_bind f m.

Definition print (line : string) : io unit := λ out, (Ok (), out ++ [line]).
Definition raise {A} (e : exn) : io A := λ out, (Raise e, out).
Definition lift {A} (r : result A) : io A := λ out, (r, out).

(** ** Values of the tables *)

(** A cell of a pandas table: text, a number, or the missing value.  Python
    compares numbers by value whatever their type, so one constructor covers
    them; a string never equals a number. *)
Inductive cell : Type :=
  | CStr (s : string)
  | CNum (q : Qc)
  | CNaN.

#[global] Instance cell_eq_dec : EqDecision cell.
Proof. solve_decision. Defined.

#[global] Instance cell_countable : Countable cell.
Proof.
  refine (inj_countable'
    (λ c, match c with
          | CStr s => inl s
          | CNum q => inr (inl q)
          | CNaN => inr (inr ())
          end)
    (λ x, match x with
          | inl s => CStr s
          | inr (inl q) => CNum q
          | inr (inr _) => CNaN
          end) _).
  by intros [].
Defined.

Inductive dtype : Type := Int64 | Float64 | Bool | Object.

#[global] Instance dtype_eq_dec : EqDecision dtype.
Proof. solve_decision. Defined.

(** A pandas [Series] or [Index]: the values and the type pandas gave them. *)
Record Series : Type := mkSeries {
  values : list cell;
  dtype_of : dtype
}.

(** A table: its row labels and its named columns. *)
Record DataFrame : Type := mkDataFrame {
  index : Series;
  columns : gmap string Series
}.

(** ** Pieces of Python the module calls *)

(** [l[n]] on a list. *)
Definition list_getitem {A} (l : list A) (n : nat) : result A :=
  match l !! n with
  | Some x => Ok x
  | None => Raise IndexError
  end.

(** [d[k]] on a dictionary. *)
Definition dict_getitem {A} (d : gmap string A) (k : string) : result A :=
  match d !! k with
  | Some x => Ok x
  | None => Raise (KeyError k)
  end.

(** [l[0]] where [l] comes from [split] or [rsplit], which never return an
    empty list (see [split_nonempty] and [rsplit1_nonempty]). *)
Definition item0 (l : list string) : string := default "" (head l).

(** [s.split(sep)] for a separator of one character. *)
Fixpoint split (sep : ascii) (s : string) : list string :=
  match s with
  | "" => [""]
  | String c s' =>
      if decide (c = sep) then "" :: split sep s'
      else match split sep s' with
           | h :: t => String c h :: t
           | [] => [String c ""]
           end
  end.

(** [s.rsplit(sep, 1)] for a separator of one character: at most one cut,
    at the last separator. *)
Fixpoint rsplit1 (sep : ascii) (s : string) : list string :=
  match s with
  | "" => [""]
  | String c s' =>
      match rsplit1 sep s' with
      | [p; t] => [String c p; t]
      | _ => if decide (c = sep) then [""; s'] else [String c s']
      end
  end.

Definition startswith_slash (s : string) : bool :=
  match s with
  | String c _ => bool_decide (c = "/"%char)
  | "" => false
  end.

Fixpoint endswith_slash (s : string) : bool :=
  match s with
  | "" => false
  | String c "" => bool_decide (c = "/"%char)
  | String _ s' => endswith_slash s'
  end.

(** [os.path.join(a, b)] of [posixpath]: an absolute [b] replaces [a]; a
    separator is added unless [a] is empty or ends with one. *)
Definition path_join (a b : string) : string :=
  if startswith_slash b then b
  else if bool_decide (a = "") || endswith_slash a then a +:+ b
  else a +:+ "/" +:+ b.

(** [list(set(xs))]: the distinct values, in the order of the set, which the
    statements below never rely on.  A Python set may keep several missing
    values apart, where this one keeps one; the module only tests the listed
    values against lists of strings, a test that no missing value passes. *)
Definition list_set {A} `{Countable A} (xs : list A) : list A :=
  elements (list_to_set xs : gset A).

(** ** The outside world *)

(** A value of the registry document. *)
#[warnings="-register-all"] Inductive yaml : Type :=
  | YStr (s : string)
  | YInt (n : Z)
  | YMap (kvs : list (string * yaml)).

(** The text of a tab-separated file, by column: the first column, which
    holds the row labels, and the other columns under their headers. *)
Record tsv : Type := mkTsv {
  tsv_index : list string;
  tsv_columns : gmap string (list string)
}.

(** The operating system and the files, as the module sees them. *)
Record os_env : Type := mkEnv {
  realpath : string → string;
  listdir : string → result (list string);
  yaml_load : string → result (gmap string (gmap string yaml));
  read_tsv : string → result tsv
}.

(** A field read as text: itself, or the missing value for a marker of
    one. *)
Definition text_cell (is_na : string → bool) (t : string) : cell :=
  if is_na t then CNaN else CStr t.

(** How [pd.read_csv] turns text into values.  [infer] is its type
    inference on the text of one column: the values it makes of the fields
    and the type it gives the column, one value per row; [is_na] tells the
    markers of a missing value.  Text has the type [Object], as in the
    versions of pandas that the module was written for. *)
Record pandas_reader : Type := mkReader {
  is_na : string → bool;
  infer : list string → Series;
  infer_length : ∀ ts, length (values (infer ts)) = length ts
}.

(** [pd.read_csv(path, sep='\t', index_col=0)] *)
Definition read_csv_index_col0 (P : pandas_reader) (E : os_env) (path : string)
  : result DataFrame :=
  t ← read_tsv E path;
  mret (mkDataFrame (infer P (tsv_index t)) (infer P <$> tsv_columns t)).

(** [pd.read_csv(path, sep='\t', dtype=str).iloc[:,0]] *)
Definition read_csv_str_iloc0 (P : pandas_reader) (E : os_env) (path : string)
  : result Series :=
  t ← read_tsv E path;
  mret (mkSeries (text_cell (is_na P) <$> tsv_index t) Object).

(** [df.index = s]: pandas refuses labels that are not one per row. *)
Definition set_index (df : DataFrame) (s : Series) : result DataFrame :=
  if decide (length (values s) = length (values (index df)))
  then Ok (mkDataFrame s (columns df))
  else Raise (ValueError "Length mismatch").

(** [meta[name]]: the column, or [KeyError]. *)
Definition getitem (meta : DataFrame) (name : string) : result Series :=
  dict_getitem (columns meta) name.

(** [s.isin(vals)] for labels [vals] that are strings, as the labels that
    this module builds are: a cell is selected when it is one of them.
    (Where both the cells and the labels are numbers, pandas compares them
    after a conversion to a common type; the statements about [isin] below
    are about string labels only.) *)
Definition isin (s : Series) (vals : list cell) : list bool :=
  (λ v, bool_decide (v ∈ vals)) <$> values s.

(** Keeping the entries of [xs] where the mask holds. *)
Fixpoint mask_select {A} (xs : list A) (mask : list bool) : list A :=
  match xs, mask with
  | x :: xs', b :: mask' =>
      if b then x :: mask_select xs' mask' else mask_select xs' mask'
  | _, _ => []
  end.

(** [meta[mask]]: the rows where the mask holds. *)
Definition getitem_mask (meta : DataFrame) (mask : list bool) : DataFrame :=
  mkDataFrame
    (mkSeries (mask_select (values (index meta)) mask) (dtype_of (index meta)))
    ((λ s, mkSeries (mask_select (values s) mask) (dtype_of s)) <$> columns meta).

(** [x in l] for a list [l] of strings: only a string can equal a string. *)
Definition py_in (x : cell) (l : list string) : bool :=
  match x with
  | CStr s => bool_decide (s ∈ l)
  | _ => false
  end.

(** ** [read_yaml] *)

(** [os.path.join] takes strings only. *)
Definition as_str (v : yaml) : result string :=
  match v with
  | YStr s => Ok s
  | _ => Raise TypeError
  end.

(** [try: body except KeyError: handler] *)
Definition except_KeyError {A} (body : result A) (handler : io A) : io A :=
  match body with
  | Raise (KeyError _) => handler
  | r => lift r
  end.

Definition otu_table_of (E : os_env) (batch_data_dir : string)
    (data : gmap string yaml) : result (gmap string yaml) :=
  v ← dict_getitem data "folder";
  folder ← as_str v;
  let folderpath := path_join batch_data_dir folder in
  mret (<["otu_table" :=
            YStr (realpath E
              (path_join (path_join folderpath "RDP")
                 (item0 (rsplit1 "_" folder)
                  +:+ ".otu_table.100.denovo.rdp_assigned")))]> data).

Definition metadata_file_of (E : os_env) (batch_data_dir : string)
    (data : gmap string yaml) : result (gmap string yaml) :=
  v ← dict_getitem data "folder";
  folder ← as_str v;
  let folderpath := path_join batch_data_dir folder in
  mret (<["metadata_file" :=
            YStr (realpath E
              (path_join folderpath
                 (item0 (rsplit1 "_" folder) +:+ ".metadata.txt")))]> data).

Definition summary_file_of (E : os_env) (batch_data_dir : string)
    (data : gmap string yaml) : result (gmap string yaml) :=
  v ← dict_getitem data "folder";
  folder ← as_str v;
  let folderpath := path_join batch_data_dir folder in
  mret (<["summary_file" :=
            YStr (realpath E (path_join folderpath "summary_file.txt"))]> data).

(** [if key not in data: datasets[dataset][key] = v] *)
Definition setdefault (key : string) (v : yaml) (data : gmap string yaml)
  : gmap string yaml :=
  match data !! key with
  | None => <[key := v]> data
  | Some _ => data
  end.

(** The three blocks that derive a path.  [data] and [datasets[dataset]]
    are one and the same dictionary, so what a block stores in the latter is
    seen by the tests of the next blocks on the former: each block is a
    function of that one dictionary. *)
Definition fill_otu_table (E : os_env) (batch_data_dir dataset : string)
    (data : gmap string yaml) : io (gmap string yaml) :=
  if decide (data !! "otu_table" = None) then
    except_KeyError (otu_table_of E batch_data_dir data)
      (raise (ValueError
         ("No OTU table or results folder specified for dataset "
          +:+ dataset)))
  else mret data.

Definition fill_metadata_file (E : os_env) (batch_data_dir dataset : string)
    (data : gmap string yaml) : io (gmap string yaml) :=
  if decide (data !! "metadata_file" = None) then
    except_KeyError (metadata_file_of E batch_data_dir data)
      (raise (ValueError
         ("No metadata file or results folder specified for dataset "
          +:+ dataset)))
  else mret data.

Definition fill_summary_file (E : os_env) (batch_data_dir dataset : string)
    (data : gmap string yaml) : io (gmap string yaml) :=
  if decide (data !! "summary_file" = None) then
    except_KeyError (summary_file_of E batch_data_dir data)
      (_ ← print ("No summary file or results folder specified for dataset "
                  +:+ dataset);
       mret data)
  else mret data.

(** The body of the loop. *)
Definition read_yaml_entry (E : os_env) (batch_data_dir dataset : string)
    (data : gmap string yaml) : io (gmap string yaml) :=
  data ← fill_otu_table E batch_data_dir dataset data;
  data ← fill_metadata_file E batch_data_dir dataset data;
  data ← fill_summary_file E batch_data_dir dataset data;
  let data := setdefault "region" (YStr "unk") data in
  let data := setdefault "sequencer" (YStr "unk") data in
  let data := setdefault "disease_label" (YStr "DiseaseState") data in
  let data := setdefault "table_type" (YStr "classic") data in
  let data := setdefault "year" (YStr "unk") data in
  mret data.

(** [for x in xs: state = body(state, x)], until an exception. *)
Fixpoint for_each {S A} (body : S → A → io S) (xs : list A) (s : S) : io S :=
  match xs with
  | [] => mret s
  | x :: xs' => s' ← body s x; for_each body xs' s'
  end.

Definition read_yaml_step (E : os_env) (batch_data_dir : string)
    (datasets : gmap string (gmap string yaml)) (dataset : string)
  : io (gmap string (gmap string yaml)) :=
  data ← lift (dict_getitem datasets dataset);
  data' ← read_yaml_entry E batch_data_dir dataset data;
  mret (<[dataset := data']> datasets).

(** The keys of a dictionary, in the order a [for] loop meets them. *)
Definition keys {A} (d : gmap string A) : list string := (map_to_list d).*1.

Definition read_yaml (E : os_env) (yamlfile batch_data_dir : string)
  : io (gmap string (gmap string yaml)) :=
  datasets ← lift (yaml_load E yamlfile);
  for_each (read_yaml_step E batch_data_dir) (keys datasets) datasets.

(** ** [read_dataset_files] *)

Definition reindex_as_str (P : pandas_reader) (E : os_env) (path : string)
    (df : DataFrame) : result DataFrame :=
  if decide (dtype_of (index df) ≠ Object) then
    s ← read_csv_str_iloc0 P E path;
    set_index df s
  else mret df.

Definition read_dataset_files (P : pandas_reader) (E : os_env)
    (datasetid clean_folder : string) : result (DataFrame * DataFrame) :=
  let fnotu := datasetid +:+ ".otu_table.clean" in
  let fnmeta := datasetid +:+ ".metadata.clean" in
  df ← read_csv_index_col0 P E (path_join clean_folder fnotu);
  meta ← read_csv_index_col0 P E (path_join clean_folder fnmeta);
  df ← reindex_as_str P E (path_join clean_folder fnotu) df;
  meta ← reindex_as_str P E (path_join clean_folder fnmeta) meta;
  mret (df, meta).

(** ** [get_classes] *)

Definition controls : list string := ["H"; "nonCDI"; "nonGVHD"; "nonIBD"].
Definition diseases : list string :=
  ["ASD"; "CD"; "CDI"; "CIRR"; "CRC"; "EDD"; "GVHD"; "HIV";
   "MHE"; "NASH"; "OB"; "PAR"; "PSA"; "RA"; "T1D"; "T2D";
   "UC"].

Definition get_classes (meta : DataFrame) : result (list (list cell)) :=
  col ← getitem meta "DiseaseState";
  let labels := list_set (values col) in
  mret [filter (λ i, py_in i controls) labels;
        filter (λ j, py_in j diseases) labels].

(** ** [get_samples] *)

Definition get_samples (meta : DataFrame) (classes_list : list (list cell))
  : result (list (list cell)) :=
  col ← getitem meta "DiseaseState";
  c0 ← list_getitem classes_list 0;
  let h := values (index (getitem_mask meta (isin col c0))) in
  col ← getitem meta "DiseaseState";
  c1 ← list_getitem classes_list 1;
  let dis := values (index (getitem_mask meta (isin col c1))) in
  mret [h; dis].

(** ** [get_dataset_ids] *)

Definition get_dataset_ids (E : os_env) (clean_folder : string)
  : result (list string) :=
  files ← listdir E clean_folder;
  let datasets := list_set ((λ i, item0 (split "." i)) <$> files) in
  mret (filter (λ d, d +:+ ".otu_table.clean" ∈ files
                     ∧ d +:+ ".metadata.clean" ∈ files) datasets).

(** ** [read_dfdict_data] *)

(** The value stored for a dataset; the fields are the keys of the
    dictionary that the code builds. *)
Record bundle : Type := mkBundle {
  df : DataFrame;
  meta : DataFrame;
  dis_smpls : list cell;
  H_smpls : list cell;
  classes : list (list cell)
}.

(** [a, b = l] *)
Definition unpack2 {A} (l : list A) : result (A * A) :=
  match l with
  | [a; b] => Ok (a, b)
  | _ => Raise (ValueError "unpack")
  end.

Definition read_dfdict_step (P : pandas_reader) (E : os_env)
    (raw2abun : DataFrame → result DataFrame) (datadir : string)
    (dfdict : gmap string bundle) (dataset : string)
  : io (gmap string bundle) :=
  _ ← print dataset;
  '(df, meta) ← lift (read_dataset_files P E dataset datadir);
  df ← lift (raw2abun df);
  classes_list ← lift (get_classes meta);
  c0 ← lift (list_getitem classes_list 0);
  empty ← lift (if decide (length c0 = 0) then Ok true
                else c1 ← list_getitem classes_list 1;
                     Ok (bool_decide (length c1 = 0)));
  if empty : bool then
    raise (ValueError ("Something wrong with " +:+ dataset +:+ " metadata."))
  else
    '(H_smpls, dis_smpls) ← lift (get_samples meta classes_list ≫= unpack2);
    mret (<[dataset := mkBundle df meta dis_smpls H_smpls classes_list]> dfdict).

Definition read_dfdict_data (P : pandas_reader) (E : os_env)
    (raw2abun : DataFrame → result DataFrame) (datadir : string)
  : io (gmap string bundle) :=
  _ ← print "Reading datasets...";
  datasetids ← lift (get_dataset_ids E datadir);
  dfdict ← for_each (read_dfdict_step P E raw2abun datadir) datasetids ∅;
  _ ← print (String "010" "Reading datasets... Finished.");
  mret dfdict.

(** ** Vocabulary of the statements *)

(** [c] occurs in [s]. *)
Fixpoint has_char (c : ascii) (s : string) : bool :=
  match s with
  | "" => false
  | String a s' => bool_decide (a = c) || has_char c s'
  end.

(** [d] is the part of [f] before its first [sep]: all of [f] when [sep]
    does not occur in it. *)
Definition before_first (sep : ascii) (d f : string) : Prop :=
  has_char sep d = false ∧ (f = d ∨ ∃ rest, f = d +:+ String sep rest).

(** The error of the batch aggregator for a dataset. *)
Definition validation_error (dataset : string) : exn :=
  ValueError ("Something wrong with " +:+ dataset +:+ " metadata.").

(** The five fields with a constant default, filled as the loop body does. *)
Definition fill_defaults (data : gmap string yaml) : gmap string yaml :=
  setdefault "year" (YStr "unk")
    (setdefault "table_type" (YStr "classic")
      (setdefault "disease_label" (YStr "DiseaseState")
        (setdefault "sequencer" (YStr "unk")
          (setdefault "region" (YStr "unk") data)))).

(** The three paths derived from a folder name. *)
Definition otu_table_path (E : os_env) (base folder : string) : string :=
  realpath E
    (path_join (path_join (path_join base folder) "RDP")
       (item0 (rsplit1 "_" folder) +:+ ".otu_table.100.denovo.rdp_assigned")).

Definition metadata_file_path (E : os_env) (base folder : string) : string :=
  realpath E
    (path_join (path_join base folder)
       (item0 (rsplit1 "_" folder) +:+ ".metadata.txt")).

Definition summary_file_path (E : os_env) (base folder : string) : string :=
  realpath E (path_join (path_join base folder) "summary_file.txt").

Definition no_otu_table (dataset : string) : exn :=
  ValueError ("No OTU table or results folder specified for dataset "
              +:+ dataset).
Definition no_metadata_file (dataset : string) : exn :=
  ValueError ("No metadata file or results folder specified for dataset "
              +:+ dataset).
Definition no_summary_file (dataset : string) : string :=
  "No summary file or results folder specified for dataset " +:+ dataset.

(** What the body leaves in an entry when it returns. *)
Definition derive_paths (E : os_env) (base : string) (data : gmap string yaml)
  : gmap string yaml :=
  match data !! "folder" with
  | Some (YStr folder) =>
      setdefault "summary_file" (YStr (summary_file_path E base folder))
        (setdefault "metadata_file" (YStr (metadata_file_path E base folder))
          (setdefault "otu_table" (YStr (otu_table_path E base folder)) data))
  | _ => data
  end.

Definition filled_fields : list string :=
  ["otu_table"; "metadata_file"; "summary_file"; "region"; "sequencer";
   "disease_label"; "table_type"; "year"].

(** An entry before and after the resolver: explicit fields are kept, no
    field but the eight is touched, and an absent field gets its default or
    its derived path. *)
Record resolved_from (E : os_env) (base : string)
    (data data' : gmap string yaml) : Prop := {
  explicit_kept : ∀ field v, data !! field = Some v → data' !! field = Some v;
  others_untouched :
    ∀ field, field ∉ filled_fields → data' !! field = data !! field;
  region_default :
    data !! "region" = None → data' !! "region" = Some (YStr "unk");
  sequencer_default :
    data !! "sequencer" = None → data' !! "sequencer" = Some (YStr "unk");
  disease_label_default :
    data !! "disease_label" = None →
    data' !! "disease_label" = Some (YStr "DiseaseState");
  table_type_default :
    data !! "table_type" = None →
    data' !! "table_type" = Some (YStr "classic");
  year_default :
    data !! "year" = None → data' !! "year" = Some (YStr "unk");
  otu_table_derived :
    data !! "otu_table" = None →
    ∃ folder, data !! "folder" = Some (YStr folder)
      ∧ data' !! "otu_table" = Some (YStr (otu_table_path E base folder));
  metadata_file_derived :
    data !! "metadata_file" = None →
    ∃ folder, data !! "folder" = Some (YStr folder)
      ∧ data' !! "metadata_file"
        = Some (YStr (metadata_file_path E base folder));
  summary_file_derived :
    data !! "summary_file" = None →
    data' !! "summary_file"
    = match data !! "folder" with
      | Some (YStr folder) => Some (YStr (summary_file_path E base folder))
      | _ => None
      end
}.


(** An entry that the body of the loop can resolve: it names a folder, or
    it gives both files itself and either has no folder at all or gives the
    summary file too. *)
Definition resolvable (data : gmap string yaml) : Prop :=
  (∃ folder, data !! "folder" = Some (YStr folder))
  ∨ (is_Some (data !! "otu_table") ∧ is_Some (data !! "metadata_file")
     ∧ (data !! "folder" = None ∨ is_Some (data !! "summary_file"))).


(** The bundle that the batch aggregator stores for a dataset: the tables
    as loaded, the abundance table normalised, the classes of the metadata,
    both of them non-empty, and the samples of the two groups. *)
Definition loaded_bundle (P : pandas_reader) (E : os_env)
    (raw2abun : DataFrame → result DataFrame) (datadir dataset : string)
    (b : bundle) : Prop :=
  ∃ raw,
    read_dataset_files P E dataset datadir = Ok (raw, meta b)
    ∧ raw2abun raw = Ok (df b)
    ∧ get_classes (meta b) = Ok (classes b)
    ∧ get_samples (meta b) (classes b) = Ok [H_smpls b; dis_smpls b]
    ∧ ∃ c0 c1, classes b = [c0; c1] ∧ c0 ≠ [] ∧ c1 ≠ [].

(** ** A small world for the examples *)

(** The markers of a missing value that [pd.read_csv] knows by default. *)
Definition na_values : list string :=
  [""; "#N/A"; "#N/A N/A"; "#NA"; "-1.#IND"; "-1.#QNAN"; "-NaN"; "-nan";
   "1.#IND"; "1.#QNAN"; "<NA>"; "N/A"; "NA"; "NULL"; "NaN"; "None"; "n/a";
   "nan"; "null"].

Definition default_is_na (t : string) : bool := bool_decide (t ∈ na_values).

Fixpoint parse_digits (acc : N) (s : string) : option N :=
  match s with
  | "" => Some acc
  | String c s' =>
      match Ascii.is_nat c with
      | Some d => parse_digits (10 * acc + N.of_nat d) s'
      | None => None
      end
  end.

Definition parse_int (t : string) : option Z :=
  match t with
  | "" => None
  | _ => Z.of_N <$> parse_digits 0 t
  end.

(** An inference that knows unsigned integers only: a column of them is
    numeric, any other column is left as text. *)
Definition infer_int (ts : list string) : Series :=
  match mapM parse_int ts with
  | Some zs => mkSeries ((λ z, CNum (Q2Qc (QArith_base.inject_Z z))) <$> zs) Int64
  | None => mkSeries (text_cell default_is_na <$> ts) Object
  end.

Program Definition int_reader : pandas_reader :=
  {| is_na := default_is_na; infer := infer_int |}.
Next Obligation.
  intros ts. unfold infer_int. destruct (mapM parse_int ts) as [zs|] eqn:Hzs.
  - simpl. rewrite length_fmap. symmetry. by eapply length_mapM.
  - simpl. by rewrite length_fmap.
Qed.

(** The directory [clean] holds the complete dataset [A], whose samples
    have numbers for names, and half of a dataset [B]; the directory [bad]
    holds the dataset [C], all of whose samples are controls; the directory
    [odd] holds the dataset [N], whose first sample is named NA. *)
Definition ex_files : gmap string tsv :=
  {[ "clean/A.otu_table.clean" :=
       mkTsv ["1001"; "1002"; "1003"]
         {[ "OTU1" := ["3"; "0"; "4"]; "OTU2" := ["5"; "7"; "1"] ]};
     "clean/A.metadata.clean" :=
       mkTsv ["1001"; "1002"; "1003"]
         {[ "DiseaseState" := ["H"; "CD"; "Unknown"] ]};
     "clean/B.otu_table.clean" :=
       mkTsv ["b1"] {[ "OTU1" := ["2"] ]};
     "bad/C.otu_table.clean" :=
       mkTsv ["c1"; "c2"] {[ "OTU1" := ["2"; "9"] ]};
     "bad/C.metadata.clean" :=
       mkTsv ["c1"; "c2"] {[ "DiseaseState" := ["H"; "nonIBD"] ]};
     "odd/N.otu_table.clean" :=
       mkTsv ["NA"; "s2"] {[ "OTU1" := ["2"; "9"] ]};
     "odd/N.metadata.clean" :=
       mkTsv ["NA"; "s2"] {[ "DiseaseState" := ["H"; "CD"] ]} ]}.

Definition ex_entry_folder : gmap string yaml :=
  {[ "folder" := YStr "foo_bar_results"; "year" := YInt 2014;
     "condition" := YMap [("CD", YStr "case")] ]}.

Definition ex_entry_explicit : gmap string yaml :=
  {[ "otu_table" := YStr "/x/otu.txt"; "metadata_file" := YStr "/x/meta.txt";
     "disease_label" := YStr "Status" ]}.

Definition ex_entry_empty : gmap string yaml := {[ "region" := YStr "V4" ]}.

Definition ex_registry : gmap string (gmap string yaml) :=
  {[ "ds1" := ex_entry_folder; "ds2" := ex_entry_explicit ]}.

Definition ex_broken_registry : gmap string (gmap string yaml) :=
  {[ "ds1" := ex_entry_folder; "ds3" := ex_entry_empty ]}.

(** A file system without symbolic links, asked only about paths that are
    already canonical: [realpath] changes nothing. *)
Definition ex_env : os_env :=
  {| realpath := λ path, path;
     listdir := λ dir,
       if decide (dir = "clean") then
         Ok ["A.otu_table.clean"; "A.metadata.clean"; "B.otu_table.clean"]
       else if decide (dir = "bad") then
         Ok ["C.metadata.clean"; "C.otu_table.clean"]
       else Raise (OSError dir);
     yaml_load := λ file,
       if decide (file = "datasets.yaml") then Ok ex_registry
       else if decide (file = "broken.yaml") then Ok ex_broken_registry
       else Raise (OSError file);
     read_tsv := λ path,
       match ex_files !! path with
       | Some t => Ok t
       | None => Raise (OSError path)
       end |}.

(** A normalisation that leaves the table as it is. *)
Definition ex_raw2abun (df : DataFrame) : result DataFrame := Ok df.

Definition ex_meta : DataFrame :=
  mkDataFrame (mkSeries [CStr "s1"; CStr "s2"; CStr "s3"; CStr "s4"] Object)
    {[ "DiseaseState" :=
         mkSeries [CStr "H"; CStr "CD"; CStr "UC"; CStr "Unknown"] Object ]}.

Definition ex_meta3 : DataFrame :=
  mkDataFrame (mkSeries [CStr "s1"; CStr "s2"; CStr "s3"] Object)
    {[ "DiseaseState" :=
         mkSeries [CStr "H"; CStr "CD"; CStr "Unknown"] Object ]}.

(** A table whose disease states are under the name that the entry
    [ex_entry_explicit] configures. *)
Definition ex_meta_status : DataFrame :=
  mkDataFrame (mkSeries [CStr "s1"; CStr "s2"] Object)
    {[ "Status" := mkSeries [CStr "H"; CStr "CD"] Object ]}.

(** ** Strings and paths *)

Lemma app_String c s t : String c s +:+ t = String c (s +:+ t).
Proof. reflexivity. Qed.

Lemma app_empty_l t : "" +:+ t = t.
Proof. reflexivity. Qed.

Lemma app_empty_r s : s +:+ "" = s.
Proof. induction s as [|c s IH]; [done|]. by rewrite app_String, IH. Qed.

Lemma app_assoc_str s t u : (s +:+ t) +:+ u = s +:+ t +:+ u.
Proof. induction s as [|c s IH]; [done|]. by rewrite !app_String, IH. Qed.

Lemma split_nonempty sep s : split sep s ≠ [].
Proof.
  destruct s as [|c s]; simpl; [done|].
  case_decide; [done|]. by destruct (split sep s).
Qed.

Lemma rsplit1_cases sep s :
  rsplit1 sep s = [s] ∧ has_char sep s = false
  ∨ ∃ p t, rsplit1 sep s = [p; t] ∧ has_char sep t = false
           ∧ s = p +:+ String sep t.
Proof.
  induction s as [|c s IH]; simpl; [by left|].
  destruct IH as [[-> Hs]|(p & t & -> & Ht & ->)].
  - case_decide as Hc.
    + subst c. right. exists "", s. by rewrite app_empty_l.
    + left. by rewrite bool_decide_eq_false_2, Hs.
  - right. exists (String c p), t. by rewrite app_String.
Qed.

Lemma rsplit1_nonempty sep s : rsplit1 sep s ≠ [].
Proof. by destruct (rsplit1_cases sep s) as [[-> _]|(? & ? & -> & _)]. Qed.

Lemma has_char_app sep s t :
  has_char sep (s +:+ t) = has_char sep s || has_char sep t.
Proof.
  induction s as [|c s IH]; [done|].
  rewrite app_String. simpl. rewrite IH. by rewrite orb_assoc.
Qed.

Lemma rsplit1_no_sep sep s : has_char sep s = false → rsplit1 sep s = [s].
Proof.
  intros Hs. destruct (rsplit1_cases sep s) as [[-> _]|(p & t & _ & _ & ->)].
  - done.
  - rewrite has_char_app in Hs. simpl in Hs.
    rewrite bool_decide_eq_true_2 in Hs by done.
    by rewrite orb_true_r in Hs.
Qed.

Lemma rsplit1_last_sep sep p t :
  has_char sep t = false → rsplit1 sep (p +:+ String sep t) = [p; t].
Proof.
  intros Ht. induction p as [|c p IH].
  - rewrite app_empty_l. simpl. rewrite (rsplit1_no_sep _ _ Ht).
    by rewrite decide_True.
  - rewrite app_String. simpl. by rewrite IH.
Qed.

Lemma item0_split_before_first sep f :
  before_first sep (item0 (split sep f)) f.
Proof.
  induction f as [|c f IH]; simpl.
  { split; [done|by left]. }
  case_decide as Hc.
  - subst c. split; [done|]. right. by exists f.
  - pose proof (split_nonempty sep f) as Hne.
    destruct (split sep f) as [|h t]; [done|].
    unfold item0 in *. simpl in *. destruct IH as [Hh Hf].
    split.
    + simpl. by rewrite bool_decide_eq_false_2.
    + destruct Hf as [->|[rest ->]]; [by left|right].
      exists rest. by rewrite app_String.
Qed.

Lemma item0_split_no_sep sep d :
  has_char sep d = false → item0 (split sep d) = d.
Proof.
  induction d as [|c d IH]; [done|]. simpl.
  intros [Hc Hd]%orb_false_elim. apply bool_decide_eq_false in Hc.
  rewrite decide_False by done. specialize (IH Hd).
  pose proof (split_nonempty sep d).
  destruct (split sep d) as [|h t]; [done|].
  unfold item0 in *. simpl in *. by subst.
Qed.

Lemma item0_split_first_sep sep d rest :
  has_char sep d = false → item0 (split sep (d +:+ String sep rest)) = d.
Proof.
  induction d as [|c d IH].
  - intros _. rewrite app_empty_l. simpl. by rewrite decide_True.
  - intros [Hc Hd]%orb_false_elim. apply bool_decide_eq_false in Hc.
    rewrite app_String. simpl. rewrite decide_False by done.
    specialize (IH Hd).
    pose proof (split_nonempty sep (d +:+ String sep rest)).
    destruct (split sep (d +:+ String sep rest)) as [|h t]; [done|].
    unfold item0 in *. simpl in *. by subst.
Qed.

Lemma item0_split_iff sep d f :
  item0 (split sep f) = d ↔ before_first sep d f.
Proof.
  split.
  - intros <-. apply item0_split_before_first.
  - intros [Hd [->|[rest ->]]].
    + by apply item0_split_no_sep.
    + by apply item0_split_first_sep.
Qed.

(** ** [get_classes] and [get_samples] *)

Lemma py_in_spec x l : py_in x l ↔ x ∈ (CStr <$> l).
Proof.
  destruct x as [s| |]; simpl.
  - rewrite bool_decide_spec. rewrite list_elem_of_fmap. split.
    + intros ?. by exists s.
    + by intros (? & [= ->] & ?).
  - split; [done|]. rewrite list_elem_of_fmap. by intros (? & ? & _).
  - split; [done|]. rewrite list_elem_of_fmap. by intros (? & ? & _).
Qed.

Lemma list_set_NoDup {A} `{Countable A} (xs : list A) : NoDup (list_set xs).
Proof. apply NoDup_elements. Qed.

Lemma elem_of_list_set {A} `{Countable A} (xs : list A) x :
  x ∈ list_set xs ↔ x ∈ xs.
Proof. unfold list_set. by rewrite elem_of_elements, elem_of_list_to_set. Qed.

(** Filtering the listing of a set by a vocabulary lists the intersection. *)
Lemma filter_list_set_vocabulary (xs : list cell) (vocabulary : list string) :
  filter (λ i, py_in i vocabulary) (list_set xs)
  ≡ₚ elements (list_to_set xs ∩ list_to_set (CStr <$> vocabulary) : gset cell).
Proof.
  apply NoDup_Permutation.
  - apply NoDup_filter, list_set_NoDup.
  - apply NoDup_elements.
  - intros x. rewrite list_elem_of_filter, elem_of_list_set, py_in_spec.
    rewrite elem_of_elements, elem_of_intersection, !elem_of_list_to_set.
    tauto.
Qed.

Lemma vocabularies_disjoint s : s ∈ controls → s ∈ diseases → False.
Proof.
  intros Hc Hd.
  assert (Forall (λ s, s ∉ diseases) controls) as Hall.
  { by apply (bool_decide_unpack _). }
  rewrite Forall_forall in Hall. by apply (Hall s).
Qed.

Lemma get_classes_unfold meta col :
  columns meta !! "DiseaseState" = Some col →
  get_classes meta =
    Ok [filter (λ i, py_in i controls) (list_set (values col));
        filter (λ j, py_in j diseases) (list_set (values col))].
Proof. intros Hcol. unfold get_classes, getitem, dict_getitem. by rewrite Hcol. Qed.

Lemma get_classes_inv meta l :
  get_classes meta = Ok l →
  ∃ col, columns meta !! "DiseaseState" = Some col
    ∧ l = [filter (λ i, py_in i controls) (list_set (values col));
           filter (λ j, py_in j diseases) (list_set (values col))].
Proof.
  unfold get_classes, getitem, dict_getitem.
  destruct (columns meta !! "DiseaseState") as [col|]; [|done].
  intros [= <-]. by exists col.
Qed.

(** C1: on a table with a disease-state column, [get_classes] returns the
    pair of the distinct values of the column that are among the control
    labels H, nonCDI, nonGVHD, nonIBD and of those that are among the
    disease labels ASD, CD, CDI, CIRR, CRC, EDD, GVHD, HIV, MHE, NASH, OB,
    PAR, PSA, RA, T1D, T2D, UC, each without repetition and in the order of
    the set; a value of neither vocabulary is in neither list, and nothing
    is raised. *)
Theorem get_classes_matches_vocabularies (meta : DataFrame) (col : Series) :
  columns meta !! "DiseaseState" = Some col →
  let control_vocabulary : list cell :=
    CStr <$> ["H"; "nonCDI"; "nonGVHD"; "nonIBD"] in
  let disease_vocabulary : list cell :=
    CStr <$> ["ASD"; "CD"; "CDI"; "CIRR"; "CRC"; "EDD"; "GVHD"; "HIV"; "MHE";
              "NASH"; "OB"; "PAR"; "PSA"; "RA"; "T1D"; "T2D"; "UC"] in
  ∃ matched_controls matched_diseases : list cell,
    get_classes meta = Ok [matched_controls; matched_diseases]
    ∧ matched_controls
        ≡ₚ elements (list_to_set (values col)
                      ∩ list_to_set control_vocabulary : gset cell)
    ∧ matched_diseases
        ≡ₚ elements (list_to_set (values col)
                      ∩ list_to_set disease_vocabulary : gset cell)
    ∧ NoDup matched_controls ∧ NoDup matched_diseases
    ∧ (∀ x, x ∈ matched_controls ↔ x ∈ values col ∧ x ∈ control_vocabulary)
    ∧ (∀ x, x ∈ matched_diseases ↔ x ∈ values col ∧ x ∈ disease_vocabulary)
    ∧ (∀ x, x ∉ control_vocabulary → x ∉ disease_vocabulary →
            (x ∉ matched_controls) ∧ (x ∉ matched_diseases)).
Proof.
  intros Hcol control_vocabulary disease_vocabulary. eexists _, _.
  split; [by apply get_classes_unfold|].
  split; [apply (filter_list_set_vocabulary (values col) controls)|].
  split; [apply (filter_list_set_vocabulary (values col) diseases)|].
  split; [apply NoDup_filter, list_set_NoDup|].
  split; [apply NoDup_filter, list_set_NoDup|].
  assert (∀ vocabulary x,
    x ∈ filter (λ i, py_in i vocabulary) (list_set (values col))
    ↔ x ∈ values col ∧ x ∈ (CStr <$> vocabulary)) as Hmem.
  { intros v x. rewrite list_elem_of_filter, elem_of_list_set, py_in_spec. tauto. }
  split; [apply (Hmem controls)|]. split; [apply (Hmem diseases)|].
  intros x Hc Hd. rewrite (Hmem controls), (Hmem diseases).
  split; intros [_ ?]; [by apply Hc|by apply Hd].
Qed.

(** C9: the two lists that [get_classes] returns have no label in common. *)
Theorem get_classes_disjoint (meta : DataFrame)
    (matched_controls matched_diseases : list cell) :
  get_classes meta = Ok [matched_controls; matched_diseases] →
  ∀ x, x ∈ matched_controls → x ∈ matched_diseases → False.
Proof.
  intros (col & _ & [= -> ->])%get_classes_inv x.
  rewrite !list_elem_of_filter, !py_in_spec, !list_elem_of_fmap.
  intros [(s & -> & Hs) _] [(s' & [= <-] & Hs') _].
  by eapply vocabularies_disjoint.
Qed.

Lemma mask_select_zip {A} (xs : list A) (col vals : list cell) :
  mask_select xs ((λ v, bool_decide (v ∈ vals)) <$> col)
  = (filter (λ r, r.2 ∈ vals) (zip xs col)).*1.
Proof.
  revert col. induction xs as [|x xs IH]; intros [|v col]; simpl; try done.
  rewrite filter_cons. simpl. rewrite IH.
  by destruct (decide (v ∈ vals));
    [rewrite bool_decide_eq_true_2|rewrite bool_decide_eq_false_2].
Qed.

Lemma elem_of_selected {A} (xs : list A) (col vals : list cell) i :
  i ∈ (filter (λ r, r.2 ∈ vals) (zip xs col)).*1
  ↔ ∃ k v, xs !! k = Some i ∧ col !! k = Some v ∧ v ∈ vals.
Proof.
  rewrite list_elem_of_fmap. split.
  - intros ([i' v] & -> & [Hv Hin]%list_elem_of_filter).
    apply list_elem_of_lookup in Hin as [k Hk].
    apply lookup_zip_with_Some in Hk as (? & ? & [= <- <-] & ? & ?).
    by exists k, v.
  - intros (k & v & Hi & Hv & Hin). exists (i, v). split; [done|].
    apply list_elem_of_filter. split; [done|].
    apply list_elem_of_lookup. exists k.
    apply lookup_zip_with_Some. by exists i, v.
Qed.

Lemma get_samples_unfold meta col classes_list c0 c1 :
  columns meta !! "DiseaseState" = Some col →
  classes_list !! 0 = Some c0 → classes_list !! 1 = Some c1 →
  get_samples meta classes_list
  = Ok [(filter (λ r, r.2 ∈ c0) (zip (values (index meta)) (values col))).*1;
        (filter (λ r, r.2 ∈ c1) (zip (values (index meta)) (values col))).*1].
Proof.
  intros Hcol H0 H1.
  unfold get_samples, getitem, dict_getitem, list_getitem.
  rewrite Hcol, H0, H1. simpl. unfold isin. by rewrite !mask_select_zip.
Qed.

(** C6: for a table with a disease-state column and a classes list that
    starts with the control labels and the disease labels, all of them
    strings, [get_samples] returns the pair of the row labels, in row
    order, of the rows whose disease state is one of the control labels and
    of the rows whose disease state is one of the disease labels; a label
    all of whose rows have a disease state in neither list is in neither
    output. *)
Theorem get_samples_selects_rows (meta : DataFrame) (col : Series)
    (classes_list : list (list cell))
    (control_labels disease_labels : list string) :
  columns meta !! "DiseaseState" = Some col →
  classes_list !! 0 = Some (CStr <$> control_labels) →
  classes_list !! 1 = Some (CStr <$> disease_labels) →
  let rows := zip (values (index meta)) (values col) in
  ∃ control_sample_ids disease_sample_ids : list cell,
    get_samples meta classes_list
      = Ok [control_sample_ids; disease_sample_ids]
    ∧ control_sample_ids
      = (filter (λ r, r.2 ∈ (CStr <$> control_labels)) rows).*1
    ∧ disease_sample_ids
      = (filter (λ r, r.2 ∈ (CStr <$> disease_labels)) rows).*1
    ∧ (∀ i, i ∈ control_sample_ids ↔
         ∃ k s, values (index meta) !! k = Some i
                ∧ values col !! k = Some (CStr s) ∧ s ∈ control_labels)
    ∧ (∀ i, i ∈ disease_sample_ids ↔
         ∃ k s, values (index meta) !! k = Some i
                ∧ values col !! k = Some (CStr s) ∧ s ∈ disease_labels)
    ∧ (∀ i, (∀ k v, values (index meta) !! k = Some i →
                    values col !! k = Some v →
                    (v ∉ (CStr <$> control_labels))
                    ∧ (v ∉ (CStr <$> disease_labels))) →
            (i ∉ control_sample_ids) ∧ (i ∉ disease_sample_ids)).
Proof.
  intros Hcol H0 H1 rows.
  assert (∀ (labels : list string) i,
    i ∈ (filter (λ r, r.2 ∈ (CStr <$> labels)) rows).*1
    ↔ ∃ k s, values (index meta) !! k = Some i
             ∧ values col !! k = Some (CStr s) ∧ s ∈ labels) as Hmem.
  { intros labels i. unfold rows. rewrite elem_of_selected. split.
    - intros (k & v & Hi & Hv & (s & -> & Hs)%list_elem_of_fmap).
      by exists k, s.
    - intros (k & s & Hi & Hv & Hs). exists k, (CStr s).
      split; [done|]. split; [done|]. apply list_elem_of_fmap. by exists s. }
  exists (filter (λ r, r.2 ∈ (CStr <$> control_labels)) rows).*1,
    (filter (λ r, r.2 ∈ (CStr <$> disease_labels)) rows).*1.
  split; [by eapply get_samples_unfold|].
  split; [done|]. split; [done|].
  split; [apply Hmem|]. split; [apply Hmem|].
  intros i Hrows.
  split; intros (k & s & Hi & Hv & Hin)%Hmem;
    destruct (Hrows k (CStr s) Hi Hv) as [Hc Hd];
    [apply Hc|apply Hd]; apply list_elem_of_fmap; by exists s.
Qed.

(** C10: on a table without a column named [DiseaseState], whatever
    other columns it has and whatever label a registry configures,
    [get_classes] and [get_samples] raise [KeyError] for that name; and on
    any two tables the results of [get_classes] agree when the columns of
    that name agree, as do those of [get_samples] when the row labels agree
    too: neither reads another column. *)
Theorem DiseaseState_is_hardcoded (meta : DataFrame) :
  columns meta !! "DiseaseState" = None →
  (get_classes meta = Raise (KeyError "DiseaseState")
   ∧ ∀ classes_list,
       get_samples meta classes_list = Raise (KeyError "DiseaseState"))
  ∧ ∀ meta1 meta2 : DataFrame,
      columns meta1 !! "DiseaseState" = columns meta2 !! "DiseaseState" →
      get_classes meta1 = get_classes meta2
      ∧ (index meta1 = index meta2 →
         ∀ classes_list, get_samples meta1 classes_list
                         = get_samples meta2 classes_list).
Proof.
  intros Hcol. split.
  - unfold get_classes, get_samples, getitem, dict_getitem. by rewrite Hcol.
  - intros meta1 meta2 Heq.
    unfold get_classes, get_samples, getitem, dict_getitem.
    rewrite Heq. split; [done|]. intros Hidx cl.
    unfold getitem_mask. by rewrite Hidx.
Qed.

(** ** [get_dataset_ids] *)

(** C7: for a directory that can be listed, [get_dataset_ids] returns,
    without repetition and in the order of the set, exactly the strings [d]
    that are the part before the first dot of some file name of the
    directory and for which both [d.otu_table.clean] and [d.metadata.clean]
    are file names of the directory. *)
Theorem get_dataset_ids_complete_pairs (E : os_env) (clean_folder : string)
    (files : list string) :
  listdir E clean_folder = Ok files →
  ∃ ids : list string,
    get_dataset_ids E clean_folder = Ok ids
    ∧ NoDup ids
    ∧ ∀ d, d ∈ ids ↔
        (∃ f rest, f ∈ files ∧ f = d +:+ "." +:+ rest
                   ∧ has_char "." d = false)
        ∧ d +:+ ".otu_table.clean" ∈ files
        ∧ d +:+ ".metadata.clean" ∈ files.
Proof.
  intros Hls. unfold get_dataset_ids. rewrite Hls. simpl.
  eexists. split; [done|].
  split; [apply NoDup_filter, list_set_NoDup|].
  intros d. rewrite list_elem_of_filter, elem_of_list_set, list_elem_of_fmap.
  split.
  - intros [[Hotu Hmeta] (f & -> & Hf)]. split; [|done].
    exists (item0 (split "." f) +:+ ".otu_table.clean"), "otu_table.clean".
    split; [done|]. split; [done|].
    apply (item0_split_before_first "." f).
  - intros [(f & rest & Hf & -> & Hd) [? ?]]. split; [done|].
    exists (d +:+ "." +:+ rest). split; [|done].
    symmetry. by apply (item0_split_first_sep "." d rest).
Qed.

(** ** [read_dataset_files] *)


Lemma reindex_as_str_spec P E path t df :
  read_tsv E path = Ok t →
  index df = infer P (tsv_index t) →
  ∃ df', reindex_as_str P E path df = Ok df'
    ∧ columns df' = columns df
    ∧ dtype_of (index df') = Object
    ∧ values (index df')
      = if decide (dtype_of (infer P (tsv_index t)) = Object)
        then values (infer P (tsv_index t))
        else text_cell (is_na P) <$> tsv_index t.
Proof.
  intros Hread Hidx. unfold reindex_as_str. rewrite Hidx.
  destruct (decide (dtype_of (infer P (tsv_index t)) ≠ Object)) as [Hne|Heq].
  - unfold read_csv_str_iloc0. rewrite Hread. simpl. unfold set_index. simpl.
    rewrite decide_True by by rewrite Hidx, infer_length, length_fmap.
    eexists. split; [done|]. split; [done|]. split; [done|].
    by rewrite decide_False.
  - apply dec_stable in Heq. exists df. split; [done|]. split; [done|].
    rewrite Hidx. split; [done|]. by rewrite decide_True.
Qed.

(** What the loader returns when both files can be read: the columns as
    pandas inferred them, and row labels of type [Object] that are the text
    of the file where pandas had inferred another type for them, and are
    left as pandas inferred them otherwise. *)
Lemma read_dataset_files_ok P E datasetid clean_folder otu md :
  read_tsv E (path_join clean_folder (datasetid +:+ ".otu_table.clean"))
    = Ok otu →
  read_tsv E (path_join clean_folder (datasetid +:+ ".metadata.clean"))
    = Ok md →
  ∃ abundance_table metadata_table : DataFrame,
    read_dataset_files P E datasetid clean_folder
      = Ok (abundance_table, metadata_table)
    ∧ dtype_of (index abundance_table) = Object
    ∧ dtype_of (index metadata_table) = Object
    ∧ values (index abundance_table)
      = (if decide (dtype_of (infer P (tsv_index otu)) = Object)
         then values (infer P (tsv_index otu))
         else text_cell (is_na P) <$> tsv_index otu)
    ∧ values (index metadata_table)
      = (if decide (dtype_of (infer P (tsv_index md)) = Object)
         then values (infer P (tsv_index md))
         else text_cell (is_na P) <$> tsv_index md)
    ∧ columns abundance_table = infer P <$> tsv_columns otu
    ∧ columns metadata_table = infer P <$> tsv_columns md.
Proof.
  intros Hotu Hmd. unfold read_dataset_files, read_csv_index_col0.
  rewrite Hotu, Hmd. simpl.
  destruct (reindex_as_str_spec P E _ otu
              (mkDataFrame (infer P (tsv_index otu)) (infer P <$> tsv_columns otu))
              Hotu eq_refl) as (df' & -> & Hc1 & Ht1 & Hv1).
  destruct (reindex_as_str_spec P E _ md
              (mkDataFrame (infer P (tsv_index md)) (infer P <$> tsv_columns md))
              Hmd eq_refl) as (meta' & -> & Hc2 & Ht2 & Hv2).
  simpl. exists df', meta'. by repeat split.
Qed.

(** C3: the loader on the clean files of a dataset whose first sample is
    named NA.  Both tables are returned, but the first row label of each is
    the missing value and not the string of the file: pandas takes NA for a
    marker of a missing value, the labels come out with the type [Object],
    and the loader reads the labels again as text only where their type is
    another one. *)
Theorem read_dataset_files_missing_label :
  ∃ abundance_table metadata_table : DataFrame,
    read_dataset_files int_reader ex_env "N" "odd"
      = Ok (abundance_table, metadata_table)
    ∧ dtype_of (index abundance_table) = Object
    ∧ dtype_of (index metadata_table) = Object
    ∧ values (index abundance_table) = [CNaN; CStr "s2"]
    ∧ values (index metadata_table) = [CNaN; CStr "s2"]
    ∧ values (index abundance_table) ≠ [CStr "NA"; CStr "s2"].
Proof.
  destruct (read_dataset_files_ok int_reader ex_env "N" "odd"
              (mkTsv ["NA"; "s2"] {[ "OTU1" := ["2"; "9"] ]})
              (mkTsv ["NA"; "s2"] {[ "DiseaseState" := ["H"; "CD"] ]}))
    as (df & meta & Hok & Hd1 & Hd2 & Hv1 & Hv2 & _).
  - vm_compute. reflexivity.
  - vm_compute. reflexivity.
  - exists df, meta. split; [exact Hok|]. split; [exact Hd1|].
    split; [exact Hd2|]. split; [exact Hv1|]. split; [exact Hv2|].
    rewrite Hv1. discriminate.
Qed.

(** ** Loops that may raise *)

Ltac io_unfold :=
  unfold mbind, io_mbind, io_bind, result_mbind, result_bind,
         mret, io_ret, result_ret, lift, raise, print in *.

Lemma for_each_cons {S A} (body : S → A → io S) x xs s out :
  for_each body (x :: xs) s out
  = match body s x out with
    | (Ok s', out') => for_each body xs s' out'
    | (Raise e, out') => (Raise e, out')
    end.
Proof. reflexivity. Qed.

Lemma for_each_app {S A} (body : S → A → io S) xs ys s out :
  for_each body (xs ++ ys) s out
  = match for_each body xs s out with
    | (Ok s', out') => for_each body ys s' out'
    | (Raise e, out') => (Raise e, out')
    end.
Proof.
  revert s out. induction xs as [|x xs IH]; intros s out; [done|].
  rewrite <-app_comm_cons, !for_each_cons.
  destruct (body s x out) as [[s'|e] out']; [apply IH|done].
Qed.

(** A loop that meets an element on which the body raises, in every state
    that the loop can be in, does not return. *)
Lemma for_each_raises {S A} (I : S → Prop) (body : S → A → io S) d xs :
  (∀ s out, I s → ∃ e out', body s d out = (Raise e, out')) →
  (∀ s x out s' out', I s → body s x out = (Ok s', out') → I s') →
  d ∈ xs →
  ∀ s out, I s → ∃ e out', for_each body xs s out = (Raise e, out').
Proof.
  intros Hd Hinv. induction xs as [|x xs IH]; intros Hin s out Hs.
  { by apply elem_of_nil in Hin. }
  rewrite for_each_cons.
  destruct (body s x out) as [[s'|e] out'] eqn:Hx; [|by eauto].
  apply elem_of_cons in Hin as [->|Hin]; [|by eapply IH, Hinv].
  destruct (Hd s out Hs) as (e & o & He). congruence.
Qed.

(** ** [read_dfdict_data] *)

Lemma read_dfdict_step_empty_class P E raw2abun datadir dfdict d
    abundance metadata cl out :
  read_dataset_files P E d datadir = Ok (abundance, metadata) →
  get_classes metadata = Ok cl →
  cl !! 0 = Some [] ∨ cl !! 1 = Some [] →
  read_dfdict_step P E raw2abun datadir dfdict d out
  = match raw2abun abundance with
    | Ok _ => (Raise (validation_error d), out ++ [d])
    | Raise e => (Raise e, out ++ [d])
    end.
Proof.
  intros Hread Hcl Hempty. unfold read_dfdict_step. io_unfold.
  rewrite Hread. destruct (raw2abun abundance) as [df'|e]; [|done].
  rewrite Hcl. apply get_classes_inv in Hcl as (col & _ & ->). simpl.
  destruct Hempty as [[= ->]|[= Hd]].
  - done.
  - rewrite Hd. simpl. by case_decide.
Qed.

(** C4: if a dataset of the directory loads and its classes list has an
    empty control group or an empty disease group, [read_dfdict_data]
    raises and returns no mapping, whatever the other datasets are; and
    when the datasets met before it were processed and its abundance table
    was normalised, the call raises the validation error of that dataset
    right after printing its name, whatever datasets come after it. *)
Theorem read_dfdict_data_aborts_on_empty_class (P : pandas_reader)
    (E : os_env) (raw2abun : DataFrame → result DataFrame) (datadir : string)
    (ids : list string) (d : string) (abundance metadata : DataFrame)
    (cl : list (list cell)) :
  get_dataset_ids E datadir = Ok ids →
  d ∈ ids →
  read_dataset_files P E d datadir = Ok (abundance, metadata) →
  get_classes metadata = Ok cl →
  cl !! 0 = Some [] ∨ cl !! 1 = Some [] →
  (∀ out, ∃ e out', read_dfdict_data P E raw2abun datadir out = (Raise e, out'))
  ∧ (∀ before after normalised dfdict out out',
       ids = before ++ d :: after →
       for_each (read_dfdict_step P E raw2abun datadir) before ∅
         (out ++ ["Reading datasets..."]) = (Ok dfdict, out') →
       raw2abun abundance = Ok normalised →
       read_dfdict_data P E raw2abun datadir out
         = (Raise (validation_error d), out' ++ [d])
       ∧ ∀ after',
           for_each (read_dfdict_step P E raw2abun datadir)
             (before ++ d :: after') ∅ (out ++ ["Reading datasets..."])
           = (Raise (validation_error d), out' ++ [d])).
Proof.
  intros Hids Hin Hread Hcl Hempty.
  pose proof (λ dfdict out,
    read_dfdict_step_empty_class P E raw2abun datadir dfdict d _ _ _ out
      Hread Hcl Hempty) as Hstep.
  split.
  - intros out. unfold read_dfdict_data. io_unfold. rewrite Hids.
    destruct (for_each_raises (λ _, True)
                (read_dfdict_step P E raw2abun datadir) d ids)
      with (s := (∅ : gmap string bundle)) (out := out ++ ["Reading datasets..."])
      as (e & out' & ->); [|done..|by eauto].
    intros s o _. rewrite Hstep. destruct (raw2abun abundance); eauto.
  - intros before after normalised dfdict out out' -> Hbefore Hnorm.
    assert (∀ after',
      for_each (read_dfdict_step P E raw2abun datadir)
        (before ++ d :: after') ∅ (out ++ ["Reading datasets..."])
      = (Raise (validation_error d), out' ++ [d])) as Hloop.
    { intros after'. rewrite for_each_app, Hbefore, for_each_cons.
      by rewrite Hstep, Hnorm. }
    split; [|done].
    unfold read_dfdict_data. io_unfold. rewrite Hids. by rewrite Hloop.
Qed.

(** ** [read_yaml]: one entry *)

Lemma lookup_setdefault key v (data : gmap string yaml) k :
  setdefault key v data !! k
  = if decide (k = key) then Some (default v (data !! key)) else data !! k.
Proof.
  unfold setdefault. destruct (data !! key) as [w|] eqn:Hkey.
  - case_decide; by simplify_eq/=.
  - case_decide; simplify_eq/=; by simplify_map_eq.
Qed.

Lemma setdefault_subseteq key v (data : gmap string yaml) :
  data ⊆ setdefault key v data.
Proof.
  unfold setdefault. destruct (data !! key) eqn:Hkey; [done|].
  by apply insert_subseteq.
Qed.

Lemma fill_defaults_subseteq data : data ⊆ fill_defaults data.
Proof.
  unfold fill_defaults.
  repeat (etrans; [|apply setdefault_subseteq]). done.
Qed.

Ltac solve_block Hfolder key :=
  unfold fill_otu_table, fill_metadata_file, fill_summary_file,
         otu_table_of, metadata_file_of, summary_file_of,
         otu_table_path, metadata_file_path, summary_file_path,
         no_otu_table, no_metadata_file, no_summary_file,
         dict_getitem, setdefault, except_KeyError;
  io_unfold; rewrite Hfolder; simpl;
  match goal with
  | data : gmap string yaml |- _ =>
      destruct (data !! key) eqn:?; case_decide; simplify_eq/=; try done
  end.

Section blocks.
Context (E : os_env) (base dataset : string).
Implicit Types (data : gmap string yaml) (out : list string).

(** With a folder name, each block is a [setdefault]. *)
Lemma fill_otu_table_folder data folder out :
  data !! "folder" = Some (YStr folder) →
  fill_otu_table E base dataset data out
  = (Ok (setdefault "otu_table" (YStr (otu_table_path E base folder)) data),
     out).
Proof. intros H. solve_block H "otu_table". Qed.

Lemma fill_metadata_file_folder data folder out :
  data !! "folder" = Some (YStr folder) →
  fill_metadata_file E base dataset data out
  = (Ok (setdefault "metadata_file"
           (YStr (metadata_file_path E base folder)) data), out).
Proof. intros H. solve_block H "metadata_file". Qed.

Lemma fill_summary_file_folder data folder out :
  data !! "folder" = Some (YStr folder) →
  fill_summary_file E base dataset data out
  = (Ok (setdefault "summary_file"
           (YStr (summary_file_path E base folder)) data), out).
Proof. intros H. solve_block H "summary_file". Qed.

(** Without a folder, a block that has to derive its path gives up. *)
Lemma fill_otu_table_no_folder data out :
  data !! "folder" = None →
  fill_otu_table E base dataset data out
  = match data !! "otu_table" with
    | None => (Raise (no_otu_table dataset), out)
    | Some _ => (Ok data, out)
    end.
Proof. intros H. solve_block H "otu_table". Qed.

Lemma fill_metadata_file_no_folder data out :
  data !! "folder" = None →
  fill_metadata_file E base dataset data out
  = match data !! "metadata_file" with
    | None => (Raise (no_metadata_file dataset), out)
    | Some _ => (Ok data, out)
    end.
Proof. intros H. solve_block H "metadata_file". Qed.

Lemma fill_summary_file_no_folder data out :
  data !! "folder" = None →
  fill_summary_file E base dataset data out
  = match data !! "summary_file" with
    | None => (Ok data, out ++ [no_summary_file dataset])
    | Some _ => (Ok data, out)
    end.
Proof. intros H. solve_block H "summary_file". Qed.

(** A folder that is not a string is refused by [os.path.join]. *)
Lemma fill_otu_table_bad_folder data v out :
  data !! "folder" = Some v → as_str v = Raise TypeError →
  fill_otu_table E base dataset data out
  = match data !! "otu_table" with
    | None => (Raise TypeError, out)
    | Some _ => (Ok data, out)
    end.
Proof. intros H Hv. solve_block H "otu_table"; by rewrite Hv. Qed.

Lemma fill_metadata_file_bad_folder data v out :
  data !! "folder" = Some v → as_str v = Raise TypeError →
  fill_metadata_file E base dataset data out
  = match data !! "metadata_file" with
    | None => (Raise TypeError, out)
    | Some _ => (Ok data, out)
    end.
Proof. intros H Hv. solve_block H "metadata_file"; by rewrite Hv. Qed.

Lemma fill_summary_file_bad_folder data v out :
  data !! "folder" = Some v → as_str v = Raise TypeError →
  fill_summary_file E base dataset data out
  = match data !! "summary_file" with
    | None => (Raise TypeError, out)
    | Some _ => (Ok data, out)
    end.
Proof. intros H Hv. solve_block H "summary_file"; by rewrite Hv. Qed.

Lemma read_yaml_entry_blocks data out :
  read_yaml_entry E base dataset data out
  = match fill_otu_table E base dataset data out with
    | (Ok d1, o1) =>
        match fill_metadata_file E base dataset d1 o1 with
        | (Ok d2, o2) =>
            match fill_summary_file E base dataset d2 o2 with
            | (Ok d3, o3) => (Ok (fill_defaults d3), o3)
            | (Raise e, o3) => (Raise e, o3)
            end
        | (Raise e, o2) => (Raise e, o2)
        end
    | (Raise e, o1) => (Raise e, o1)
    end.
Proof.
  unfold read_yaml_entry. io_unfold.
  destruct (fill_otu_table _ _ _ _ _) as [[d1|e] o1]; [|done].
  destruct (fill_metadata_file _ _ _ _ _) as [[d2|e] o2]; [|done].
  by destruct (fill_summary_file _ _ _ _ _) as [[d3|e] o3].
Qed.

Lemma read_yaml_entry_folder data folder out :
  data !! "folder" = Some (YStr folder) →
  read_yaml_entry E base dataset data out
  = (Ok (fill_defaults
          (setdefault "summary_file" (YStr (summary_file_path E base folder))
            (setdefault "metadata_file"
               (YStr (metadata_file_path E base folder))
              (setdefault "otu_table" (YStr (otu_table_path E base folder))
                 data)))),
     out).
Proof.
  intros Hfolder. rewrite read_yaml_entry_blocks.
  rewrite (fill_otu_table_folder _ folder) by done.
  rewrite (fill_metadata_file_folder _ folder)
    by by rewrite lookup_setdefault, decide_False.
  rewrite (fill_summary_file_folder _ folder)
    by by rewrite !lookup_setdefault, !decide_False.
  done.
Qed.

Lemma read_yaml_entry_no_folder data out :
  data !! "folder" = None →
  read_yaml_entry E base dataset data out
  = match data !! "otu_table", data !! "metadata_file",
          data !! "summary_file" with
    | None, _, _ => (Raise (no_otu_table dataset), out)
    | Some _, None, _ => (Raise (no_metadata_file dataset), out)
    | Some _, Some _, None =>
        (Ok (fill_defaults data), out ++ [no_summary_file dataset])
    | Some _, Some _, Some _ => (Ok (fill_defaults data), out)
    end.
Proof.
  intros Hfolder. rewrite read_yaml_entry_blocks.
  rewrite fill_otu_table_no_folder by done.
  destruct (data !! "otu_table"); [|done].
  rewrite fill_metadata_file_no_folder by done.
  destruct (data !! "metadata_file"); [|done].
  rewrite fill_summary_file_no_folder by done.
  by destruct (data !! "summary_file").
Qed.

Lemma read_yaml_entry_bad_folder data v out :
  data !! "folder" = Some v → as_str v = Raise TypeError →
  read_yaml_entry E base dataset data out
  = match data !! "otu_table", data !! "metadata_file",
          data !! "summary_file" with
    | Some _, Some _, Some _ => (Ok (fill_defaults data), out)
    | _, _, _ => (Raise TypeError, out)
    end.
Proof.
  intros Hfolder Hv. rewrite read_yaml_entry_blocks.
  rewrite (fill_otu_table_bad_folder _ v) by done.
  destruct (data !! "otu_table"); [|done].
  rewrite (fill_metadata_file_bad_folder _ v) by done.
  destruct (data !! "metadata_file"); [|done].
  rewrite (fill_summary_file_bad_folder _ v) by done.
  by destruct (data !! "summary_file").
Qed.
End blocks.

Lemma derive_paths_subseteq E base data : data ⊆ derive_paths E base data.
Proof.
  unfold derive_paths. destruct (data !! "folder") as [[folder| |]|]; try done.
  repeat (etrans; [|apply setdefault_subseteq]). done.
Qed.

Lemma read_yaml_entry_ok_inv E base dataset data out data' out' :
  read_yaml_entry E base dataset data out = (Ok data', out') →
  data' = fill_defaults (derive_paths E base data)
  ∧ ((data !! "otu_table" = None ∨ data !! "metadata_file" = None) →
     ∃ folder, data !! "folder" = Some (YStr folder))
  ∧ (data !! "summary_file" = None → data !! "folder" = None
     ∨ ∃ folder, data !! "folder" = Some (YStr folder)).
Proof.
  unfold derive_paths.
  destruct (data !! "folder") as [v|] eqn:Hfolder.
  - destruct (as_str v) as [folder|e] eqn:Hstr.
    + assert (v = YStr folder) as -> by (by destruct v; simplify_eq/=).
      rewrite (read_yaml_entry_folder _ _ _ _ folder) by done.
      intros [= <- <-]. eauto 6.
    + assert (e = TypeError) as -> by (by destruct v; simplify_eq/=).
      rewrite (read_yaml_entry_bad_folder _ _ _ _ v) by done.
      destruct (data !! "otu_table"), (data !! "metadata_file"),
        (data !! "summary_file"); intros [= <- <-].
      split; [by destruct v|]. split; by intros [?|?] || intros ?.
  - rewrite read_yaml_entry_no_folder by done.
    destruct (data !! "otu_table"), (data !! "metadata_file"),
      (data !! "summary_file"); intros [= <- <-];
      (split; [done|]); (split; [by intros [?|?]|by left]).
Qed.

Lemma lookup_setdefault_ne key v (data : gmap string yaml) k :
  k ≠ key → setdefault key v data !! k = data !! k.
Proof. intros. rewrite lookup_setdefault. by rewrite decide_False. Qed.

Lemma lookup_setdefault_eq key v (data : gmap string yaml) :
  setdefault key v data !! key = Some (default v (data !! key)).
Proof. rewrite lookup_setdefault. by rewrite decide_True. Qed.

Ltac lookup_chain :=
  repeat first [rewrite lookup_setdefault_eq
               |rewrite lookup_setdefault_ne by done].

Lemma lookup_derive_paths_other E base (data : gmap string yaml) k :
  k ≠ "otu_table" → k ≠ "metadata_file" → k ≠ "summary_file" →
  derive_paths E base data !! k = data !! k.
Proof.
  intros. unfold derive_paths.
  destruct (data !! "folder") as [[folder| |]|]; try done.
  by rewrite !lookup_setdefault_ne by done.
Qed.

Lemma read_yaml_entry_resolved E base dataset data out data' out' :
  read_yaml_entry E base dataset data out = (Ok data', out') →
  resolved_from E base data data'.
Proof.
  intros (-> & Hpaths & Hsummary)%read_yaml_entry_ok_inv.
  split.
  - intros field v Hv. eapply lookup_weaken; [done|].
    etrans; [apply derive_paths_subseteq|apply fill_defaults_subseteq].
  - intros field Hfield. unfold filled_fields in Hfield.
    rewrite !not_elem_of_cons in Hfield.
    destruct Hfield as (? & ? & ? & ? & ? & ? & ? & ? & _).
    unfold fill_defaults. rewrite !lookup_setdefault_ne by done.
    by apply lookup_derive_paths_other.
  - intros Hnone. unfold fill_defaults. lookup_chain.
    by rewrite lookup_derive_paths_other, Hnone.
  - intros Hnone. unfold fill_defaults. lookup_chain.
    by rewrite lookup_derive_paths_other, Hnone.
  - intros Hnone. unfold fill_defaults. lookup_chain.
    by rewrite lookup_derive_paths_other, Hnone.
  - intros Hnone. unfold fill_defaults. lookup_chain.
    by rewrite lookup_derive_paths_other, Hnone.
  - intros Hnone. unfold fill_defaults. lookup_chain.
    by rewrite lookup_derive_paths_other, Hnone.
  - intros Hnone. destruct Hpaths as [folder Hfolder]; [by left|].
    exists folder. split; [done|].
    unfold fill_defaults, derive_paths. rewrite Hfolder.
    lookup_chain. by rewrite Hnone.
  - intros Hnone. destruct Hpaths as [folder Hfolder]; [by right|].
    exists folder. split; [done|].
    unfold fill_defaults, derive_paths. rewrite Hfolder.
    lookup_chain. by rewrite Hnone.
  - intros Hnone. unfold fill_defaults, derive_paths.
    destruct (Hsummary Hnone) as [Hfolder|[folder Hfolder]]; rewrite Hfolder;
      lookup_chain; by rewrite Hnone.
Qed.

(** ** [read_yaml]: the loop *)

Lemma keys_NoDup {A} (d : gmap string A) : NoDup (keys d).
Proof. apply NoDup_fst_map_to_list. Qed.

Lemma elem_of_keys {A} (d : gmap string A) k : k ∈ keys d ↔ is_Some (d !! k).
Proof.
  unfold keys. rewrite list_elem_of_fmap. split.
  - intros ([k' x] & -> & Hin). apply elem_of_map_to_list in Hin. by exists x.
  - intros [x Hx]. exists (k, x). split; [done|]. by apply elem_of_map_to_list.
Qed.

Lemma read_yaml_step_unfold E base datasets k out :
  read_yaml_step E base datasets k out
  = match datasets !! k with
    | Some data =>
        match read_yaml_entry E base k data out with
        | (Ok data', out') => (Ok (<[k := data']> datasets), out')
        | (Raise e, out') => (Raise e, out')
        end
    | None => (Raise (KeyError k), out)
    end.
Proof.
  unfold read_yaml_step, dict_getitem. io_unfold.
  destruct (datasets !! k); [|done].
  by destruct (read_yaml_entry _ _ _ _ _) as [[?|?] ?].
Qed.

(** After the loop, the entries whose keys were met are resolved and the
    others are as before. *)
Lemma read_yaml_loop_ok E base ks datasets out resolved out' :
  NoDup ks →
  for_each (read_yaml_step E base) ks datasets out = (Ok resolved, out') →
  (∀ k, k ∉ ks → resolved !! k = datasets !! k)
  ∧ (∀ k, k ∈ ks → ∃ data data' o o',
        datasets !! k = Some data ∧ resolved !! k = Some data'
        ∧ read_yaml_entry E base k data o = (Ok data', o')).
Proof.
  intros Hnd. revert datasets out.
  induction Hnd as [|k ks Hk Hnd IH]; intros datasets out.
  { intros [= <- <-]. split; [done|]. by intros k ?%elem_of_nil. }
  rewrite for_each_cons, read_yaml_step_unfold.
  destruct (datasets !! k) as [data|] eqn:Hdata; [|done].
  destruct (read_yaml_entry E base k data out) as [[data'|e] o1] eqn:Hentry;
    [|done].
  intros [Hout Hin]%IH. split.
  - intros k' [Hne Hnotin]%not_elem_of_cons.
    by rewrite Hout, lookup_insert_ne.
  - intros k' [->|Hk']%elem_of_cons.
    + exists data, data', out, o1. split; [done|]. split; [|done].
      by rewrite Hout, lookup_insert_eq.
    + destruct (Hin k' Hk') as (d & d' & o & o' & Hd & Hd' & He).
      exists d, d', o, o'. split; [|done].
      rewrite lookup_insert_ne in Hd; [done|]. by intros ->.
Qed.

Lemma read_yaml_unfold E yamlfile base datasets out :
  yaml_load E yamlfile = Ok datasets →
  read_yaml E yamlfile base out
  = for_each (read_yaml_step E base) (keys datasets) datasets out.
Proof. intros Hload. unfold read_yaml. io_unfold. by rewrite Hload. Qed.

Lemma read_yaml_ok_entries E yamlfile base datasets out resolved out' :
  yaml_load E yamlfile = Ok datasets →
  read_yaml E yamlfile base out = (Ok resolved, out') →
  ∀ dataset,
    match datasets !! dataset with
    | Some data => ∃ data' o o', resolved !! dataset = Some data'
        ∧ read_yaml_entry E base dataset data o = (Ok data', o')
    | None => resolved !! dataset = None
    end.
Proof.
  intros Hload. rewrite (read_yaml_unfold _ _ _ datasets) by done.
  intros [Hout Hin]%read_yaml_loop_ok; [|apply keys_NoDup].
  intros dataset. destruct (datasets !! dataset) as [data|] eqn:Hdata.
  - destruct (Hin dataset) as (d & d' & o & o' & Hd & Hd' & He).
    { apply elem_of_keys. by eexists. }
    simplify_eq. eauto.
  - rewrite Hout, Hdata; [done|]. rewrite elem_of_keys, Hdata.
    by intros [??].
Qed.

(** The loop does not return when the body raises on one of the entries. *)
Lemma read_yaml_raises E yamlfile base datasets dataset data :
  yaml_load E yamlfile = Ok datasets →
  datasets !! dataset = Some data →
  (∀ out, ∃ e out', read_yaml_entry E base dataset data out = (Raise e, out')) →
  ∀ out, ∃ e out', read_yaml E yamlfile base out = (Raise e, out').
Proof.
  intros Hload Hdata Hraise out.
  rewrite (read_yaml_unfold _ _ _ datasets) by done.
  assert (∀ s o, s !! dataset = Some data →
            ∃ e o', read_yaml_step E base s dataset o = (Raise e, o')) as Hstep.
  { intros s o Hs. rewrite read_yaml_step_unfold, Hs.
    destruct (Hraise o) as (e & o' & ->). eauto. }
  eapply (for_each_raises (λ s, s !! dataset = Some data)); try done.
  - intros s k o s' o' Hs. destruct (decide (k = dataset)) as [->|Hne].
    + destruct (Hstep s o Hs) as (e & o1 & ->). done.
    + rewrite read_yaml_step_unfold.
      destruct (s !! k) as [dk|]; [|done].
      destruct (read_yaml_entry _ _ _ _ _) as [[dk'|?] ?]; [|done].
      intros [= <- <-]. by rewrite lookup_insert_ne.
  - apply elem_of_keys. by eexists.
Qed.

Lemma read_yaml_entry_resolvable E base dataset data out :
  (∃ data' out', read_yaml_entry E base dataset data out = (Ok data', out'))
  ↔ resolvable data.
Proof.
  destruct (data !! "folder") as [v|] eqn:Hfolder.
  - destruct (as_str v) as [folder|e] eqn:Hstr.
    + assert (v = YStr folder) as -> by (by destruct v; simplify_eq/=).
      rewrite (read_yaml_entry_folder _ _ _ _ folder) by done.
      split; [intros _; left|]; eauto.
    + assert (e = TypeError) as -> by (by destruct v; simplify_eq/=).
      rewrite (read_yaml_entry_bad_folder _ _ _ _ v) by done.
      unfold resolvable, is_Some. rewrite Hfolder.
      destruct (data !! "otu_table"), (data !! "metadata_file"),
        (data !! "summary_file");
        (split;
         [intros (? & ? & ?); simplify_eq; eauto 10
         |intros [[? ?]|([? ?] & [? ?] & [?|[? ?]])]; simplify_eq/=; eauto]).
  - rewrite read_yaml_entry_no_folder by done.
    unfold resolvable, is_Some. rewrite Hfolder.
    destruct (data !! "otu_table"), (data !! "metadata_file"),
      (data !! "summary_file");
      (split;
       [intros (? & ? & ?); simplify_eq; eauto 10
       |intros [[? ?]|([? ?] & [? ?] & [?|[? ?]])]; simplify_eq/=; eauto]).
Qed.

Lemma read_yaml_loop_succeeds E base ks (s : gmap string (gmap string yaml))
    out :
  NoDup ks →
  (∀ k, k ∈ ks → ∃ data, s !! k = Some data ∧ resolvable data) →
  ∃ resolved out',
    for_each (read_yaml_step E base) ks s out = (Ok resolved, out').
Proof.
  intros Hnd. revert s out.
  induction Hnd as [|k ks Hk Hnd IH]; intros s out Hall; [by eexists _, _|].
  rewrite for_each_cons, read_yaml_step_unfold.
  destruct (Hall k) as (data & -> & Hres); [apply list_elem_of_here|].
  apply (read_yaml_entry_resolvable E base k data out) in Hres
    as (data' & out1 & ->).
  apply IH. intros k' Hk'.
  rewrite lookup_insert_ne by (by intros ->).
  apply Hall. by apply list_elem_of_further.
Qed.

(** C8: when the resolver returns, the registry has the same datasets as
    before, and in every entry each field that was there keeps its value;
    no field other than the eight is touched; and a field among the eight
    that was absent holds its default ([unk] for region, sequencer and year,
    [DiseaseState] for the disease label, [classic] for the table type) or
    the path derived from the folder. *)
Theorem read_yaml_keeps_explicit_fields (E : os_env)
    (yamlfile base : string) (datasets resolved : gmap string (gmap string yaml))
    (out out' : list string) :
  yaml_load E yamlfile = Ok datasets →
  read_yaml E yamlfile base out = (Ok resolved, out') →
  (∀ dataset, resolved !! dataset = None ↔ datasets !! dataset = None)
  ∧ ∀ dataset data,
      datasets !! dataset = Some data →
      ∃ data', resolved !! dataset = Some data'
        ∧ resolved_from E base data data'.
Proof.
  intros Hload Hok.
  pose proof (read_yaml_ok_entries _ _ _ _ _ _ _ Hload Hok) as H.
  split.
  - intros dataset. specialize (H dataset).
    destruct (datasets !! dataset) as [data|]; [|done].
    destruct H as (data' & _ & _ & -> & _). done.
  - intros dataset data Hdata. specialize (H dataset). rewrite Hdata in H.
    destruct H as (data' & o & o' & Hres & Hentry).
    exists data'. split; [done|]. by eapply read_yaml_entry_resolved.
Qed.

(** C5: an entry without a folder makes the body raise the configuration
    error of its dataset when it has no OTU table, or has one and no
    metadata file, and then the resolver returns no registry; when it has
    both and no summary file, the body prints one warning, leaves the
    summary file unset, fills the defaults and returns. *)
Theorem read_yaml_entry_without_folder (E : os_env) (yamlfile base : string)
    (datasets : gmap string (gmap string yaml)) (dataset : string)
    (data : gmap string yaml) :
  yaml_load E yamlfile = Ok datasets →
  datasets !! dataset = Some data →
  data !! "folder" = None →
  (data !! "otu_table" = None →
     (∀ out, read_yaml_entry E base dataset data out
             = (Raise (no_otu_table dataset), out))
     ∧ ∀ out, ∃ e out', read_yaml E yamlfile base out = (Raise e, out'))
  ∧ (is_Some (data !! "otu_table") → data !! "metadata_file" = None →
     (∀ out, read_yaml_entry E base dataset data out
             = (Raise (no_metadata_file dataset), out))
     ∧ ∀ out, ∃ e out', read_yaml E yamlfile base out = (Raise e, out'))
  ∧ (is_Some (data !! "otu_table") → is_Some (data !! "metadata_file") →
     data !! "summary_file" = None →
     ∀ out, ∃ data',
       read_yaml_entry E base dataset data out
         = (Ok data', out ++ [no_summary_file dataset])
       ∧ data' !! "summary_file" = None
       ∧ data' = fill_defaults data
       ∧ resolved_from E base data data').
Proof.
  intros Hload Hdata Hfolder.
  pose proof (read_yaml_entry_no_folder E base dataset data) as Hentry.
  split; [|split].
  - intros Hotu.
    assert (∀ out, read_yaml_entry E base dataset data out
                   = (Raise (no_otu_table dataset), out)) as Hraise.
    { intros out. rewrite Hentry by done. by rewrite Hotu. }
    split; [done|]. eapply read_yaml_raises; [done..|].
    intros out. rewrite Hraise. eauto.
  - intros [otu Hotu] Hmeta.
    assert (∀ out, read_yaml_entry E base dataset data out
                   = (Raise (no_metadata_file dataset), out)) as Hraise.
    { intros out. rewrite Hentry by done. by rewrite Hotu, Hmeta. }
    split; [done|]. eapply read_yaml_raises; [done..|].
    intros out. rewrite Hraise. eauto.
  - intros [otu Hotu] [md Hmeta] Hsummary out.
    exists (fill_defaults data).
    assert (read_yaml_entry E base dataset data out
            = (Ok (fill_defaults data), out ++ [no_summary_file dataset]))
      as Hok.
    { rewrite Hentry by done. by rewrite Hotu, Hmeta, Hsummary. }
    split; [done|]. split; [|split; [done|]].
    + unfold fill_defaults. rewrite !lookup_setdefault. by simpl.
    + by eapply read_yaml_entry_resolved.
Qed.

(** ** Paths *)

Lemma endswith_slash_app a b : b ≠ "" → endswith_slash (a +:+ b) = endswith_slash b.
Proof.
  intros Hb. induction a as [|c a IH]; [done|].
  rewrite app_String. simpl. rewrite IH.
  destruct (a +:+ b) eqn:Hab; [|done].
  destruct a; [|done]. by rewrite app_empty_l in Hab.
Qed.

Lemma app_not_empty_r a b : b ≠ "" → a +:+ b ≠ "".
Proof. intros Hb. destruct a; [by rewrite app_empty_l|done]. Qed.

Lemma path_join_regular a b :
  a ≠ "" → endswith_slash a = false → startswith_slash b = false →
  path_join a b = a +:+ "/" +:+ b.
Proof.
  intros Ha Hend Hstart. unfold path_join. rewrite Hstart, Hend.
  by rewrite bool_decide_eq_false_2.
Qed.

Lemma startswith_slash_prefix folder ext :
  startswith_slash folder = false → startswith_slash ext = false →
  startswith_slash (item0 (rsplit1 "_" folder) +:+ ext) = false.
Proof.
  intros Hfolder Hext.
  destruct (rsplit1_cases "_" folder) as [[-> _]|(p & t & -> & _ & ->)];
    unfold item0; simpl.
  - destruct folder; [by rewrite app_empty_l|done].
  - destruct p; [by rewrite app_empty_l|done].
Qed.

(** Where no component is absolute and none brings a separator of its own,
    joining is concatenation with separators. *)
Lemma derived_paths_regular base folder :
  base ≠ "" → endswith_slash base = false →
  folder ≠ "" → startswith_slash folder = false →
  endswith_slash folder = false →
  path_join (path_join (path_join base folder) "RDP")
    (item0 (rsplit1 "_" folder) +:+ ".otu_table.100.denovo.rdp_assigned")
  = base +:+ "/" +:+ folder +:+ "/RDP/" +:+ item0 (rsplit1 "_" folder)
    +:+ ".otu_table.100.denovo.rdp_assigned"
  ∧ path_join (path_join base folder)
      (item0 (rsplit1 "_" folder) +:+ ".metadata.txt")
    = base +:+ "/" +:+ folder +:+ "/" +:+ item0 (rsplit1 "_" folder)
      +:+ ".metadata.txt".
Proof.
  intros Hbase Hbase_end Hfolder Hfolder_start Hfolder_end.
  rewrite (path_join_regular base folder) by done.
  assert (endswith_slash (base +:+ "/" +:+ folder) = false) as Hend.
  { rewrite endswith_slash_app by by apply app_not_empty_r.
    change ("/" +:+ folder) with (String "/" folder).
    by destruct folder. }
  assert (base +:+ "/" +:+ folder ≠ "") as Hne.
  { by apply app_not_empty_r. }
  split.
  - rewrite (path_join_regular _ "RDP") by done.
    rewrite path_join_regular.
    + by rewrite !app_assoc_str.
    + by apply app_not_empty_r.
    + by rewrite endswith_slash_app.
    + by apply startswith_slash_prefix.
  - rewrite path_join_regular; [|done..|by apply startswith_slash_prefix].
    by rewrite !app_assoc_str.
Qed.

(** C2: for an entry with a folder name and neither an OTU table nor a
    metadata file, the resolver stores as OTU table the real path of
    [base/folder/RDP/prefix.otu_table.100.denovo.rdp_assigned] and as
    metadata file the real path of [base/folder/prefix.metadata.txt], the
    components joined as [os.path.join] does, where the prefix is the folder
    name up to its last underscore, or all of it when it has none. *)
Theorem read_yaml_derives_paths (E : os_env) (yamlfile base : string)
    (datasets : gmap string (gmap string yaml)) (dataset : string)
    (data : gmap string yaml) (folder : string) :
  yaml_load E yamlfile = Ok datasets →
  datasets !! dataset = Some data →
  data !! "folder" = Some (YStr folder) →
  data !! "otu_table" = None →
  data !! "metadata_file" = None →
  ∃ prefix otu_path metadata_path : string,
    (has_char "_" folder = false → prefix = folder)
    ∧ (∀ p t, folder = p +:+ "_" +:+ t → has_char "_" t = false → prefix = p)
    ∧ otu_path
      = path_join (path_join (path_join base folder) "RDP")
          (prefix +:+ ".otu_table.100.denovo.rdp_assigned")
    ∧ metadata_path
      = path_join (path_join base folder) (prefix +:+ ".metadata.txt")
    ∧ (base ≠ "" → endswith_slash base = false →
       folder ≠ "" → startswith_slash folder = false →
       endswith_slash folder = false →
       otu_path = base +:+ "/" +:+ folder +:+ "/RDP/" +:+ prefix
                  +:+ ".otu_table.100.denovo.rdp_assigned"
       ∧ metadata_path = base +:+ "/" +:+ folder +:+ "/" +:+ prefix
                         +:+ ".metadata.txt")
    ∧ (∀ out, ∃ data',
         read_yaml_entry E base dataset data out = (Ok data', out)
         ∧ data' !! "otu_table" = Some (YStr (realpath E otu_path))
         ∧ data' !! "metadata_file" = Some (YStr (realpath E metadata_path)))
    ∧ (∀ out resolved out',
         read_yaml E yamlfile base out = (Ok resolved, out') →
         ∃ data', resolved !! dataset = Some data'
           ∧ data' !! "otu_table" = Some (YStr (realpath E otu_path))
           ∧ data' !! "metadata_file" = Some (YStr (realpath E metadata_path))).
Proof.
  intros Hload Hdata Hfolder Hotu Hmeta.
  exists (item0 (rsplit1 "_" folder)),
    (path_join (path_join (path_join base folder) "RDP")
       (item0 (rsplit1 "_" folder) +:+ ".otu_table.100.denovo.rdp_assigned")),
    (path_join (path_join base folder)
       (item0 (rsplit1 "_" folder) +:+ ".metadata.txt")).
  split; [|split; [|split; [reflexivity|split; [reflexivity|split]]]].
  - intros Hnone. by rewrite rsplit1_no_sep.
  - intros p t -> Ht. change ("_" +:+ t) with (String "_" t).
    by rewrite rsplit1_last_sep.
  - apply derived_paths_regular.
  - assert (∀ out data' out',
      read_yaml_entry E base dataset data out = (Ok data', out') →
      data' !! "otu_table"
        = Some (YStr (realpath E
            (path_join (path_join (path_join base folder) "RDP")
               (item0 (rsplit1 "_" folder)
                +:+ ".otu_table.100.denovo.rdp_assigned"))))
      ∧ data' !! "metadata_file"
        = Some (YStr (realpath E
            (path_join (path_join base folder)
               (item0 (rsplit1 "_" folder) +:+ ".metadata.txt"))))) as Hres.
    { intros out data' out' Hentry%read_yaml_entry_resolved.
      destruct (otu_table_derived _ _ _ _ Hentry Hotu) as (f & Hf & ->).
      destruct (metadata_file_derived _ _ _ _ Hentry Hmeta) as (f' & Hf' & ->).
      by simplify_eq. }
    split.
    + intros out.
      pose proof (read_yaml_entry_folder E base dataset data folder out Hfolder)
        as Hentry.
      eexists. split; [exact Hentry|]. exact (Hres _ _ _ Hentry).
    + intros out resolved out' Hok.
      pose proof (read_yaml_ok_entries _ _ _ _ _ _ _ Hload Hok dataset) as H.
      rewrite Hdata in H. destruct H as (data' & o & o' & Hd & Hentry).
      exists data'. split; [done|]. exact (Hres _ _ _ Hentry).
Qed.

(** ** The statements at work *)

(** The example of the specification for [get_classes]. *)
Example get_classes_example :
  ∃ matched_diseases,
    get_classes ex_meta = Ok [[CStr "H"]; matched_diseases]
    ∧ matched_diseases ≡ₚ [CStr "CD"; CStr "UC"].
Proof. eexists. split; [by vm_compute|done]. Qed.

Lemma get_classes_matches_vocabularies_witness :
  ∃ matched_controls matched_diseases : list cell,
    get_classes ex_meta = Ok [matched_controls; matched_diseases]
    ∧ matched_controls ≡ₚ [CStr "H"]
    ∧ CStr "CD" ∈ matched_diseases ∧ CStr "UC" ∈ matched_diseases
    ∧ (CStr "H" ∉ matched_diseases)
    ∧ (CStr "Unknown" ∉ matched_controls)
    ∧ (CStr "Unknown" ∉ matched_diseases).
Proof.
  destruct (get_classes_matches_vocabularies ex_meta
              (mkSeries [CStr "H"; CStr "CD"; CStr "UC"; CStr "Unknown"] Object)
              eq_refl)
    as (mc & md & Hok & _ & _ & Hnd & _ & Hmc & Hmd & Hneither).
  exists mc, md. split; [exact Hok|].
  split; [|split; [|split; [|split]]].
  - apply NoDup_Permutation; [exact Hnd|apply NoDup_singleton|].
    intros x. rewrite Hmc. simpl.
    rewrite !elem_of_cons, !elem_of_nil.
    split; [|intros [->|[]]; by auto].
    intros [[->|[->|[->|[->|[]]]]] Hin]; [by left|..]; exfalso;
      destruct Hin as [?|[?|[?|[?|[]]]]]; discriminate.
  - apply Hmd. split; apply (bool_decide_unpack _); vm_compute; exact I.
  - apply Hmd. split; apply (bool_decide_unpack _); vm_compute; exact I.
  - rewrite Hmd. intros [_ Hin]. revert Hin.
    apply (bool_decide_unpack _). vm_compute. exact I.
  - apply Hneither; apply (bool_decide_unpack _); vm_compute; exact I.
Defined.

Lemma get_classes_disjoint_witness :
  ∃ matched_controls matched_diseases : list cell,
    get_classes ex_meta = Ok [matched_controls; matched_diseases]
    ∧ ∀ x, x ∈ matched_controls → x ∈ matched_diseases → False.
Proof.
  destruct (get_classes ex_meta) as [[|mc [|md [|]]]|e] eqn:Hrun;
    try by vm_compute in Hrun.
  exists mc, md. split; [reflexivity|].
  exact (get_classes_disjoint ex_meta mc md Hrun).
Defined.

(** The example of the specification for [get_samples]. *)
Example get_samples_example :
  get_samples ex_meta3 [[CStr "H"]; [CStr "CD"]]
  = Ok [[CStr "s1"]; [CStr "s2"]].
Proof. by vm_compute. Qed.

Lemma get_samples_selects_rows_witness :
  ∃ control_sample_ids disease_sample_ids : list cell,
    get_samples ex_meta3 [[CStr "H"]; [CStr "CD"]]
      = Ok [control_sample_ids; disease_sample_ids]
    ∧ control_sample_ids = [CStr "s1"] ∧ disease_sample_ids = [CStr "s2"].
Proof.
  destruct (get_samples_selects_rows ex_meta3
              (mkSeries [CStr "H"; CStr "CD"; CStr "Unknown"] Object)
              [[CStr "H"]; [CStr "CD"]] ["H"] ["CD"]
              eq_refl eq_refl eq_refl)
    as (h & dis & Hok & Hh & Hdis & _).
  exists h, dis. split; [exact Hok|]. split.
  - rewrite Hh. vm_compute. reflexivity.
  - rewrite Hdis. vm_compute. reflexivity.
Defined.

Lemma DiseaseState_is_hardcoded_witness :
  ex_entry_explicit !! "disease_label" = Some (YStr "Status")
  ∧ is_Some (columns ex_meta_status !! "Status")
  ∧ get_classes ex_meta_status = Raise (KeyError "DiseaseState")
  ∧ get_samples ex_meta_status [[CStr "H"]; [CStr "CD"]]
    = Raise (KeyError "DiseaseState").
Proof.
  split; [reflexivity|]. split; [eexists; reflexivity|].
  destruct (DiseaseState_is_hardcoded ex_meta_status eq_refl)
    as [[Hclasses Hsamples] _].
  split; [exact Hclasses|apply Hsamples].
Defined.

(** The example of the specification for the directory scan. *)
Example get_dataset_ids_example : get_dataset_ids ex_env "clean" = Ok ["A"].
Proof. by vm_compute. Qed.

Lemma get_dataset_ids_complete_pairs_witness :
  ∃ ids, get_dataset_ids ex_env "clean" = Ok ids
    ∧ NoDup ids ∧ "A" ∈ ids ∧ ("B" ∉ ids).
Proof.
  destruct (get_dataset_ids_complete_pairs ex_env "clean"
              ["A.otu_table.clean"; "A.metadata.clean"; "B.otu_table.clean"]
              eq_refl) as (ids & Hok & Hnd & Hin).
  exists ids. split; [exact Hok|]. split; [exact Hnd|]. split.
  - apply Hin. split.
    + exists "A.otu_table.clean", "otu_table.clean".
      split; [apply list_elem_of_here|]. split; reflexivity.
    + split; apply (bool_decide_unpack _); vm_compute; exact I.
  - intros [_ [_ HB]]%Hin. revert HB.
    apply (bool_decide_unpack _). vm_compute. exact I.
Defined.

(** The inference of the example does take these names for numbers: the
    strings come from reading the column again. *)
Example infer_int_numeric_names :
  dtype_of (infer_int ["1001"; "1002"; "1003"]) = Int64.
Proof. reflexivity. Qed.

(** The example of the specification for the batch: a dataset with control
    labels only. *)
Lemma read_dfdict_data_aborts_on_empty_class_witness :
  read_dfdict_data int_reader ex_env ex_raw2abun "bad" []
  = (Raise (ValueError "Something wrong with C metadata."),
     ["Reading datasets..."; "C"]).
Proof.
  refine (proj1 (proj2 (read_dfdict_data_aborts_on_empty_class
            int_reader ex_env ex_raw2abun "bad" ["C"] "C" _ _ _ _ _ _ _ _)
            [] [] _ ∅ [] ["Reading datasets..."] eq_refl eq_refl eq_refl)).
  - vm_compute. reflexivity.
  - apply list_elem_of_here.
  - vm_compute. reflexivity.
  - vm_compute. reflexivity.
  - right. reflexivity.
Defined.

(** The example of the specification for the prefix of a folder name. *)
Example rsplit1_example :
  item0 (rsplit1 "_" "foo_bar_results") = "foo_bar"
  ∧ item0 (rsplit1 "_" "results") = "results".
Proof. by split. Qed.

Lemma read_yaml_derives_paths_witness :
  ∃ data',
    read_yaml_entry ex_env "/data" "ds1" ex_entry_folder [] = (Ok data', [])
    ∧ data' !! "otu_table"
      = Some (YStr "/data/foo_bar_results/RDP/foo_bar.otu_table.100.denovo.rdp_assigned")
    ∧ data' !! "metadata_file"
      = Some (YStr "/data/foo_bar_results/foo_bar.metadata.txt").
Proof.
  destruct (read_yaml_derives_paths ex_env "datasets.yaml" "/data" ex_registry
              "ds1" ex_entry_folder "foo_bar_results"
              eq_refl eq_refl eq_refl eq_refl eq_refl)
    as (prefix & otu_path & metadata_path
        & _ & Hprefix & _ & _ & Hregular & Hentry & _).
  specialize (Hprefix "foo_bar" "results" eq_refl eq_refl). subst prefix.
  destruct Hregular as [-> ->]; [done..|].
  destruct (Hentry []) as (data' & Hok & Hotu & Hmeta).
  exists data'. split; [exact Hok|]. split; [exact Hotu|exact Hmeta].
Defined.

Lemma read_yaml_entry_without_folder_witness :
  read_yaml_entry ex_env "/data" "ds3" ex_entry_empty []
  = (Raise (ValueError
       "No OTU table or results folder specified for dataset ds3"), [])
  ∧ ∃ e out', read_yaml ex_env "broken.yaml" "/data" [] = (Raise e, out').
Proof.
  destruct (read_yaml_entry_without_folder ex_env "broken.yaml" "/data"
              ex_broken_registry "ds3" ex_entry_empty
              eq_refl eq_refl eq_refl) as [Hotu _].
  destruct (Hotu eq_refl) as [Hentry Hraise].
  split; [apply Hentry|apply Hraise].
Defined.

(** An entry with both files and no folder: one warning, no summary file. *)
Example read_yaml_entry_warning :
  ∃ data',
    read_yaml_entry ex_env "/data" "ds2" ex_entry_explicit []
    = (Ok data',
       ["No summary file or results folder specified for dataset ds2"])
    ∧ data' !! "summary_file" = None
    ∧ data' !! "disease_label" = Some (YStr "Status")
    ∧ data' !! "table_type" = Some (YStr "classic").
Proof.
  exists (fill_defaults ex_entry_explicit).
  repeat split; vm_compute; reflexivity.
Qed.

(** The registry of the example resolves. *)
Lemma ex_registry_resolves out :
  ∃ resolved out',
    read_yaml ex_env "datasets.yaml" "/data" out = (Ok resolved, out').
Proof.
  rewrite (read_yaml_unfold _ _ _ ex_registry) by reflexivity.
  apply read_yaml_loop_succeeds; [apply keys_NoDup|].
  intros k [data Hdata]%elem_of_keys. exists data. split; [done|].
  unfold ex_registry in Hdata.
  apply lookup_insert_Some in Hdata as [[<- <-]|[_ Hdata]].
  - left. by exists "foo_bar_results".
  - apply lookup_singleton_Some in Hdata as [<- <-].
    right. split; [by eexists|]. split; [by eexists|]. by left.
Qed.

Lemma read_yaml_keeps_explicit_fields_witness :
  ∃ resolved out' data',
    read_yaml ex_env "datasets.yaml" "/data" [] = (Ok resolved, out')
    ∧ resolved !! "ds1" = Some data'
    ∧ data' !! "year" = Some (YInt 2014)
    ∧ data' !! "region" = Some (YStr "unk")
    ∧ data' !! "condition" = Some (YMap [("CD", YStr "case")]).
Proof.
  destruct (ex_registry_resolves []) as (resolved & out' & Hrun).
  destruct (read_yaml_keeps_explicit_fields ex_env "datasets.yaml" "/data"
              ex_registry resolved [] out' eq_refl Hrun) as [_ Hentries].
  destruct (Hentries "ds1" ex_entry_folder eq_refl) as (data' & Hres & Hfrom).
  exists resolved, out', data'. split; [exact Hrun|]. split; [exact Hres|].
  split; [|split].
  - apply (explicit_kept _ _ _ _ Hfrom). reflexivity.
  - apply (region_default _ _ _ _ Hfrom). reflexivity.
  - apply (explicit_kept _ _ _ _ Hfrom). reflexivity.
Defined.

(** The resolver on the registry with the incomplete entry. *)
Example read_yaml_broken_registry :
  read_yaml ex_env "broken.yaml" "/data" []
  = (Raise (ValueError
       "No OTU table or results folder specified for dataset ds3"), []).
Proof. by vm_compute. Qed.

(** A folder that is an absolute path, or a base with a separator of its
    own, is joined as [os.path.join] joins it. *)
Example path_join_examples :
  path_join "/data" "foo_results" = "/data/foo_results"
  ∧ path_join "/data/" "foo_results" = "/data/foo_results"
  ∧ path_join "" "foo_results" = "foo_results"
  ∧ path_join "/data" "/abs_results" = "/abs_results".
Proof. by repeat split. Qed.

(** ** More on [read_yaml] *)

Lemma setdefault_id key v (data : gmap string yaml) :
  is_Some (data !! key) → setdefault key v data = data.
Proof. intros [w Hw]. unfold setdefault. by rewrite Hw. Qed.

Lemma lookup_setdefault_is_Some key v (data : gmap string yaml) k :
  is_Some (data !! k) ∨ k = key → is_Some (setdefault key v data !! k).
Proof.
  rewrite lookup_setdefault. intros [Hk| ->].
  - case_decide; [by eexists|done].
  - rewrite decide_True by done. by eexists.
Qed.

Lemma fill_defaults_id (data : gmap string yaml) :
  is_Some (data !! "region") → is_Some (data !! "sequencer") →
  is_Some (data !! "disease_label") → is_Some (data !! "table_type") →
  is_Some (data !! "year") →
  fill_defaults data = data.
Proof.
  intros. unfold fill_defaults.
  rewrite (setdefault_id "region") by done.
  rewrite (setdefault_id "sequencer") by done.
  rewrite (setdefault_id "disease_label") by done.
  rewrite (setdefault_id "table_type") by done.
  by rewrite (setdefault_id "year").
Qed.

Lemma fill_defaults_is_Some (data : gmap string yaml) k :
  is_Some (data !! k)
  ∨ k ∈ ["region"; "sequencer"; "disease_label"; "table_type"; "year"] →
  is_Some (fill_defaults data !! k).
Proof.
  intros [Hk|Hk]; unfold fill_defaults.
  - by repeat (apply lookup_setdefault_is_Some; left).
  - rewrite !elem_of_cons, elem_of_nil in Hk.
    destruct Hk as [->|[->|[->|[->|[->|[]]]]]]; lookup_chain; by eexists.
Qed.

Lemma fill_defaults_idemp (data : gmap string yaml) :
  fill_defaults (fill_defaults data) = fill_defaults data.
Proof.
  apply fill_defaults_id; apply fill_defaults_is_Some; right;
    rewrite !elem_of_cons; naive_solver.
Qed.




Lemma read_yaml_entry_complete E base dataset data out data' out' :
  read_yaml_entry E base dataset data out = (Ok data', out') →
  Forall (λ field, is_Some (data' !! field))
    ["otu_table"; "metadata_file"; "region"; "sequencer"; "disease_label";
     "table_type"; "year"]
  ∧ (data' !! "summary_file" = None
     ↔ data !! "folder" = None ∧ data !! "summary_file" = None).
Proof.
  intros Hentry.
  pose proof (read_yaml_entry_resolved _ _ _ _ _ _ _ Hentry) as Hfrom.
  apply read_yaml_entry_ok_inv in Hentry as (_ & _ & Hsummary).
  split.
  - repeat apply Forall_cons_2; [..|apply Forall_nil_2].
    + destruct (data !! "otu_table") as [v|] eqn:Hv.
      * exists v. by apply (explicit_kept _ _ _ _ Hfrom).
      * destruct (otu_table_derived _ _ _ _ Hfrom Hv) as (? & _ & ->). done.
    + destruct (data !! "metadata_file") as [v|] eqn:Hv.
      * exists v. by apply (explicit_kept _ _ _ _ Hfrom).
      * destruct (metadata_file_derived _ _ _ _ Hfrom Hv) as (? & _ & ->). done.
    + destruct (data !! "region") as [v|] eqn:Hv.
      * exists v. by apply (explicit_kept _ _ _ _ Hfrom).
      * by rewrite (region_default _ _ _ _ Hfrom Hv).
    + destruct (data !! "sequencer") as [v|] eqn:Hv.
      * exists v. by apply (explicit_kept _ _ _ _ Hfrom).
      * by rewrite (sequencer_default _ _ _ _ Hfrom Hv).
    + destruct (data !! "disease_label") as [v|] eqn:Hv.
      * exists v. by apply (explicit_kept _ _ _ _ Hfrom).
      * by rewrite (disease_label_default _ _ _ _ Hfrom Hv).
    + destruct (data !! "table_type") as [v|] eqn:Hv.
      * exists v. by apply (explicit_kept _ _ _ _ Hfrom).
      * by rewrite (table_type_default _ _ _ _ Hfrom Hv).
    + destruct (data !! "year") as [v|] eqn:Hv.
      * exists v. by apply (explicit_kept _ _ _ _ Hfrom).
      * by rewrite (year_default _ _ _ _ Hfrom Hv).
  - destruct (data !! "summary_file") as [v|] eqn:Hv.
    + rewrite (explicit_kept _ _ _ _ Hfrom _ _ Hv). split; [done|by intros [_ ?]].
    + rewrite (summary_file_derived _ _ _ _ Hfrom Hv).
      destruct (Hsummary eq_refl) as [->|[folder ->]]; [done|].
      split; [done|by intros [? _]].
Qed.

(** X2: when the resolver returns, every entry has an OTU table, a
    metadata file, a region, a sequencer, a disease label, a table type and
    a year; and an entry is without a summary file exactly when it came
    with neither a folder nor a summary file. *)
Theorem read_yaml_entries_complete (E : os_env) (yamlfile base : string)
    (datasets resolved : gmap string (gmap string yaml))
    (out out' : list string) :
  yaml_load E yamlfile = Ok datasets →
  read_yaml E yamlfile base out = (Ok resolved, out') →
  ∀ dataset data', resolved !! dataset = Some data' →
    Forall (λ field, is_Some (data' !! field))
      ["otu_table"; "metadata_file"; "region"; "sequencer"; "disease_label";
       "table_type"; "year"]
    ∧ (data' !! "summary_file" = None
       ↔ ∃ data, datasets !! dataset = Some data
           ∧ data !! "folder" = None ∧ data !! "summary_file" = None).
Proof.
  intros Hload Hok dataset data' Hres.
  pose proof (read_yaml_ok_entries _ _ _ _ _ _ _ Hload Hok dataset) as H.
  destruct (datasets !! dataset) as [data|]; [|congruence].
  destruct H as (d' & o & o' & Hd' & Hentry). simplify_eq.
  apply read_yaml_entry_complete in Hentry as [Hall Hsummary].
  split; [done|]. rewrite Hsummary. split.
  - intros [? ?]. by exists data.
  - by intros (? & [= <-] & ? & ?).
Qed.

Lemma read_yaml_entries_complete_witness :
  ∃ resolved out' data1 data2,
    read_yaml ex_env "datasets.yaml" "/data" [] = (Ok resolved, out')
    ∧ resolved !! "ds1" = Some data1 ∧ resolved !! "ds2" = Some data2
    ∧ is_Some (data1 !! "otu_table") ∧ is_Some (data1 !! "summary_file")
    ∧ is_Some (data2 !! "year") ∧ data2 !! "summary_file" = None.
Proof.
  destruct (ex_registry_resolves []) as (resolved & out' & Hrun).
  pose proof (read_yaml_entries_complete ex_env "datasets.yaml" "/data"
                ex_registry resolved [] out' eq_refl Hrun) as Hcomplete.
  pose proof (read_yaml_ok_entries ex_env "datasets.yaml" "/data" ex_registry
                [] resolved out' eq_refl Hrun "ds1") as H1.
  pose proof (read_yaml_ok_entries ex_env "datasets.yaml" "/data" ex_registry
                [] resolved out' eq_refl Hrun "ds2") as H2.
  change (ex_registry !! "ds1") with (Some ex_entry_folder) in H1.
  change (ex_registry !! "ds2") with (Some ex_entry_explicit) in H2.
  destruct H1 as (data1 & _ & _ & H1 & _), H2 as (data2 & _ & _ & H2 & _).
  exists resolved, out', data1, data2.
  split; [exact Hrun|]. split; [exact H1|]. split; [exact H2|].
  destruct (Hcomplete "ds1" data1 H1) as [Hall1 Hsum1].
  destruct (Hcomplete "ds2" data2 H2) as [Hall2 Hsum2].
  rewrite !Forall_cons in Hall1, Hall2.
  split; [apply Hall1|]. split.
  - destruct (data1 !! "summary_file") eqn:Hs; [by eexists|].
    destruct (proj1 Hsum1 eq_refl) as (d & Hd & Hf & _).
    change (ex_registry !! "ds1") with (Some ex_entry_folder) in Hd.
    injection Hd as <-. discriminate Hf.
  - split; [apply Hall2|]. apply Hsum2. exists ex_entry_explicit.
    split; [reflexivity|]. split; reflexivity.
Defined.

Ltac not_in_list := apply (bool_decide_unpack _); vm_compute; exact I.

(** X3: resolving an entry that the body has resolved gives the same entry
    again, and prints again what was printed the first time. *)
Theorem read_yaml_entry_idempotent (E : os_env) (base dataset : string)
    (data data' : gmap string yaml) (out out' : list string) :
  read_yaml_entry E base dataset data out = (Ok data', out') →
  ∃ warnings,
    out' = out ++ warnings
    ∧ ∀ out2, read_yaml_entry E base dataset data' out2
              = (Ok data', out2 ++ warnings).
Proof.
  intros Hentry.
  pose proof (read_yaml_entry_complete _ _ _ _ _ _ _ Hentry) as [Hall _].
  rewrite !Forall_cons in Hall.
  destruct Hall as (Hotu & Hmeta & ? & ? & ? & ? & ? & _).
  pose proof (read_yaml_entry_resolved _ _ _ _ _ _ _ Hentry) as Hfrom.
  assert (data' !! "folder" = data !! "folder") as Hfolder'.
  { apply (others_untouched _ _ _ _ Hfrom). not_in_list. }
  assert (fill_defaults data' = data') as Hid by by apply fill_defaults_id.
  destruct Hotu as [otu Hotu], Hmeta as [md Hmeta].
  destruct (data !! "folder") as [v|] eqn:Hfolder.
  - destruct (as_str v) as [folder|e] eqn:Hstr.
    + assert (v = YStr folder) as -> by (by destruct v; simplify_eq/=).
      rewrite (read_yaml_entry_folder _ _ _ _ folder) in Hentry by done.
      injection Hentry as Hdata <-. exists []. split; [by rewrite app_nil_r|].
      intros out2. rewrite app_nil_r.
      rewrite (read_yaml_entry_folder _ _ _ _ folder) by done.
      assert (is_Some (data' !! "summary_file")) as Hsummary.
      { rewrite <-Hdata. apply fill_defaults_is_Some. left.
        apply lookup_setdefault_is_Some. by right. }
      rewrite (setdefault_id "otu_table") by by eexists.
      rewrite (setdefault_id "metadata_file") by by eexists.
      rewrite (setdefault_id "summary_file") by done.
      by rewrite Hid.
    + assert (e = TypeError) as -> by (by destruct v; simplify_eq/=).
      rewrite (read_yaml_entry_bad_folder _ _ _ _ v) in Hentry by done.
      destruct (data !! "otu_table"), (data !! "metadata_file"),
        (data !! "summary_file") as [su|] eqn:Hsu; simplify_eq.
      exists []. split; [by rewrite app_nil_r|].
      intros out2. rewrite app_nil_r.
      rewrite (read_yaml_entry_bad_folder _ _ _ _ v) by done.
      rewrite Hotu, Hmeta, (explicit_kept _ _ _ _ Hfrom _ _ Hsu).
      by rewrite fill_defaults_idemp.
  - rewrite read_yaml_entry_no_folder in Hentry by done.
    assert (data' !! "summary_file" = data !! "summary_file") as Hsu'.
    { destruct (data !! "summary_file") as [su|] eqn:Hsu.
      - by apply (explicit_kept _ _ _ _ Hfrom).
      - rewrite (summary_file_derived _ _ _ _ Hfrom Hsu). by rewrite Hfolder. }
    destruct (data !! "otu_table"), (data !! "metadata_file"),
      (data !! "summary_file") as [su|] eqn:Hsu; simplify_eq.
    + exists []. split; [by rewrite app_nil_r|].
      intros out2. rewrite app_nil_r.
      rewrite read_yaml_entry_no_folder by done.
      rewrite Hotu, Hmeta, Hsu'. by rewrite fill_defaults_idemp.
    + exists [no_summary_file dataset]. split; [done|].
      intros out2. rewrite read_yaml_entry_no_folder by done.
      rewrite Hotu, Hmeta, Hsu'. by rewrite fill_defaults_idemp.
Qed.

Lemma read_yaml_entry_idempotent_witness :
  read_yaml_entry ex_env "/data" "ds2" ex_entry_explicit []
  = (Ok (fill_defaults ex_entry_explicit), [no_summary_file "ds2"])
  ∧ read_yaml_entry ex_env "/data" "ds2" (fill_defaults ex_entry_explicit)
      ["again"]
    = (Ok (fill_defaults ex_entry_explicit),
       ["again"; no_summary_file "ds2"]).
Proof.
  assert (read_yaml_entry ex_env "/data" "ds2" ex_entry_explicit []
          = (Ok (fill_defaults ex_entry_explicit), [no_summary_file "ds2"]))
    as Hrun by (by rewrite read_yaml_entry_no_folder).
  split; [exact Hrun|].
  destruct (read_yaml_entry_idempotent _ _ _ _ _ _ _ Hrun) as (w & Hw & Hagain).
  simpl in Hw. subst w. exact (Hagain ["again"]).
Defined.

(** X4: the resolver returns a registry exactly when every entry names a
    folder, or gives both the OTU table and the metadata file and either
    has no folder field or gives the summary file too. *)
Theorem read_yaml_succeeds_iff (E : os_env) (yamlfile base : string)
    (datasets : gmap string (gmap string yaml)) (out : list string) :
  yaml_load E yamlfile = Ok datasets →
  (∃ resolved out', read_yaml E yamlfile base out = (Ok resolved, out'))
  ↔ ∀ dataset data, datasets !! dataset = Some data → resolvable data.
Proof.
  intros Hload. split.
  - intros (resolved & out' & Hok) dataset data Hdata.
    pose proof (read_yaml_ok_entries _ _ _ _ _ _ _ Hload Hok dataset) as H.
    rewrite Hdata in H. destruct H as (data' & o & o' & _ & Hentry).
    apply (read_yaml_entry_resolvable E base dataset data o). eauto.
  - intros Hall. rewrite (read_yaml_unfold _ _ _ datasets) by done.
    apply read_yaml_loop_succeeds; [apply keys_NoDup|].
    intros k [data Hdata]%elem_of_keys. exists data. split; [done|].
    by eapply Hall.
Qed.

Lemma read_yaml_succeeds_iff_witness :
  (∃ resolved out',
     read_yaml ex_env "datasets.yaml" "/data" [] = (Ok resolved, out'))
  ∧ resolvable ex_entry_folder ∧ resolvable ex_entry_explicit.
Proof.
  pose proof (read_yaml_succeeds_iff ex_env "datasets.yaml" "/data"
                ex_registry [] eq_refl) as [Hthen _].
  pose proof (ex_registry_resolves []) as Hok.
  split; [exact Hok|].
  split; [exact (Hthen Hok "ds1" ex_entry_folder eq_refl)|].
  exact (Hthen Hok "ds2" ex_entry_explicit eq_refl).
Defined.

Lemma no_summary_file_inj : Inj (=) (=) no_summary_file.
Proof. intros k1 k2. unfold no_summary_file. apply String.app_inj. Qed.

Lemma read_yaml_entry_log E base dataset data out data' out' :
  read_yaml_entry E base dataset data out = (Ok data', out') →
  out' = out ++ (if decide (data !! "folder" = None
                            ∧ data !! "summary_file" = None)
                 then [no_summary_file dataset] else []).
Proof.
  destruct (data !! "folder") as [v|] eqn:Hfolder.
  - rewrite decide_False by (by intros [? _]). rewrite app_nil_r.
    destruct (as_str v) as [folder|e] eqn:Hstr.
    + assert (v = YStr folder) as -> by (by destruct v; simplify_eq/=).
      rewrite (read_yaml_entry_folder _ _ _ _ folder) by done. congruence.
    + assert (e = TypeError) as -> by (by destruct v; simplify_eq/=).
      rewrite (read_yaml_entry_bad_folder _ _ _ _ v) by done.
      destruct (data !! "otu_table"), (data !! "metadata_file"),
        (data !! "summary_file"); congruence.
  - rewrite read_yaml_entry_no_folder by done.
    destruct (data !! "otu_table"), (data !! "metadata_file"),
      (data !! "summary_file"); intros [= <- <-];
      first [by rewrite decide_True
            |rewrite decide_False by (by intros [_ ?]); by rewrite app_nil_r].
Qed.

Lemma read_yaml_loop_log E base ks (s : gmap string (gmap string yaml))
    out resolved out' :
  NoDup ks →
  for_each (read_yaml_step E base) ks s out = (Ok resolved, out') →
  ∃ warnings,
    out' = out ++ warnings ∧ NoDup warnings
    ∧ ∀ line, line ∈ warnings ↔
        ∃ k data, k ∈ ks ∧ s !! k = Some data
          ∧ data !! "folder" = None ∧ data !! "summary_file" = None
          ∧ line = no_summary_file k.
Proof.
  intros Hnd. revert s out.
  induction Hnd as [|k ks Hk Hnd IH]; intros s out.
  { intros [= <- <-]. exists []. rewrite app_nil_r. split; [done|].
    split; [constructor|]. intros line. split; [by intros ?%elem_of_nil|].
    by intros (? & ? & ?%elem_of_nil & _). }
  rewrite for_each_cons, read_yaml_step_unfold.
  destruct (s !! k) as [data|] eqn:Hdata; [|done].
  destruct (read_yaml_entry E base k data out) as [[data'|e] out1] eqn:Hentry;
    [|done].
  apply read_yaml_entry_log in Hentry. intros Hloop.
  destruct (IH _ _ Hloop) as (w & -> & Hw & Hmem). clear IH Hloop.
  assert (∀ line, line ∈ w ↔
            ∃ k' data0, k' ∈ ks ∧ s !! k' = Some data0
              ∧ data0 !! "folder" = None ∧ data0 !! "summary_file" = None
              ∧ line = no_summary_file k') as Hmem'.
  { intros line. rewrite Hmem. split; intros (k' & d & Hk' & Hd & Hrest).
    - exists k', d. split; [done|]. split; [|done].
      rewrite lookup_insert_ne in Hd; [done|]. by intros ->.
    - exists k', d. split; [done|]. split; [|done].
      rewrite lookup_insert_ne; [done|]. by intros ->. }
  clear Hmem. subst out1.
  case_decide as Hwarn.
  - exists (no_summary_file k :: w). split; [by rewrite <-app_assoc|].
    split.
    + constructor; [|done]. rewrite Hmem'.
      intros (k' & _ & Hk' & _ & _ & _ & Heq).
      apply no_summary_file_inj in Heq as <-. done.
    + intros line. rewrite elem_of_cons, Hmem'. split.
      * intros [->|(k' & d & Hk' & Hrest)].
        -- exists k, data. split; [apply list_elem_of_here|]. tauto.
        -- exists k', d. split; [by apply list_elem_of_further|done].
      * intros (k' & d & [->|Hk']%elem_of_cons & Hd & Hf & Hs & ->).
        -- by left.
        -- right. by exists k', d.
  - exists w. rewrite app_nil_r. split; [done|]. split; [done|].
    intros line. rewrite Hmem'. split.
    + intros (k' & d & Hk' & Hrest). exists k', d.
      split; [by apply list_elem_of_further|done].
    + intros (k' & d & [->|Hk']%elem_of_cons & Hd & Hf & Hs & ->).
      * simplify_eq. tauto.
      * by exists k', d.
Qed.

(** X5: when the resolver returns, it has printed one warning for each
    entry that has neither a folder nor a summary file, naming its dataset,
    and nothing else. *)
Theorem read_yaml_warnings (E : os_env) (yamlfile base : string)
    (datasets resolved : gmap string (gmap string yaml))
    (out out' : list string) :
  yaml_load E yamlfile = Ok datasets →
  read_yaml E yamlfile base out = (Ok resolved, out') →
  ∃ warnings,
    out' = out ++ warnings ∧ NoDup warnings
    ∧ ∀ line, line ∈ warnings ↔
        ∃ dataset data, datasets !! dataset = Some data
          ∧ data !! "folder" = None ∧ data !! "summary_file" = None
          ∧ line = "No summary file or results folder specified for dataset "
                   +:+ dataset.
Proof.
  intros Hload. rewrite (read_yaml_unfold _ _ _ datasets) by done.
  intros (w & -> & Hnd & Hmem)%read_yaml_loop_log; [|apply keys_NoDup].
  exists w. split; [done|]. split; [done|].
  intros line. rewrite Hmem. split.
  - intros (k & d & _ & Hd & Hrest). by exists k, d.
  - intros (k & d & Hd & Hrest). exists k, d. split; [|done].
    apply elem_of_keys. by eexists.
Qed.

Lemma read_yaml_warnings_witness :
  ∃ resolved out',
    read_yaml ex_env "datasets.yaml" "/data" [] = (Ok resolved, out')
    ∧ "No summary file or results folder specified for dataset ds2" ∈ out'
    ∧ ("No summary file or results folder specified for dataset ds1" ∉ out').
Proof.
  destruct (ex_registry_resolves []) as (resolved & out' & Hrun).
  destruct (read_yaml_warnings ex_env "datasets.yaml" "/data" ex_registry
              resolved [] out' eq_refl Hrun) as (w & -> & _ & Hmem).
  exists resolved, w. split; [exact Hrun|]. split.
  - apply Hmem. exists "ds2", ex_entry_explicit.
    split; [reflexivity|]. split; [reflexivity|]. split; reflexivity.
  - intros (k & d & Hd & Hf & _ & Heq)%Hmem.
    apply (String.app_inj
             "No summary file or results folder specified for dataset ")
      in Heq as <-.
    change (ex_registry !! "ds1") with (Some ex_entry_folder) in Hd.
    injection Hd as <-. discriminate Hf.
Defined.

(** ** More on [read_dataset_files] *)

(** X6: [read_dataset_files] raises exactly when a file cannot be read: the
    error of the OTU table if that one fails, else the error of the metadata
    file; replacing the row labels never fails. *)
Theorem read_dataset_files_raises_iff (P : pandas_reader) (E : os_env)
    (datasetid clean_folder : string) (e : exn) :
  read_dataset_files P E datasetid clean_folder = Raise e
  ↔ read_tsv E (path_join clean_folder (datasetid +:+ ".otu_table.clean"))
      = Raise e
    ∨ (∃ otu,
         read_tsv E (path_join clean_folder (datasetid +:+ ".otu_table.clean"))
           = Ok otu)
      ∧ read_tsv E (path_join clean_folder (datasetid +:+ ".metadata.clean"))
        = Raise e.
Proof.
  unfold read_dataset_files, read_csv_index_col0.
  destruct (read_tsv E (path_join clean_folder
                          (datasetid +:+ ".otu_table.clean")))
    as [otu|e1] eqn:Hotu; simpl.
  - destruct (read_tsv E (path_join clean_folder
                            (datasetid +:+ ".metadata.clean")))
      as [md|e2] eqn:Hmd; simpl.
    + destruct (reindex_as_str_spec P E _ otu
                  (mkDataFrame (infer P (tsv_index otu))
                     (infer P <$> tsv_columns otu)) Hotu eq_refl)
        as (df' & -> & _).
      destruct (reindex_as_str_spec P E _ md
                  (mkDataFrame (infer P (tsv_index md))
                     (infer P <$> tsv_columns md)) Hmd eq_refl)
        as (meta' & -> & _).
      simpl. split; [done|]. by intros [?|[_ ?]].
    + split.
      * intros [= ->]. right. eauto.
      * intros [?|[_ ?]]; congruence.
  - split.
    + intros [= ->]. by left.
    + intros [?|[[? ?] _]]; congruence.
Qed.

Lemma read_dataset_files_raises_iff_witness :
  read_dataset_files int_reader ex_env "B" "clean"
  = Raise (OSError "clean/B.metadata.clean")
  ∧ read_dataset_files int_reader ex_env "Z" "clean"
    = Raise (OSError "clean/Z.otu_table.clean").
Proof.
  split.
  - apply (proj2 (read_dataset_files_raises_iff int_reader ex_env "B" "clean"
                    (OSError "clean/B.metadata.clean"))).
    right. split; [eexists|]; vm_compute; reflexivity.
  - apply (proj2 (read_dataset_files_raises_iff int_reader ex_env "Z" "clean"
                    (OSError "clean/Z.otu_table.clean"))).
    left. vm_compute. reflexivity.
Defined.



(** ** More on [get_classes] and [get_samples] *)

(** X8: the classes list depends only on which values occur in the
    disease-state column, not on how often or in which rows: two tables
    with the same values there get the same labels, up to their order. *)
Theorem get_classes_depends_on_label_set (meta1 meta2 : DataFrame)
    (col1 col2 : Series) :
  columns meta1 !! "DiseaseState" = Some col1 →
  columns meta2 !! "DiseaseState" = Some col2 →
  (∀ x, x ∈ values col1 ↔ x ∈ values col2) →
  ∃ controls1 diseases1 controls2 diseases2,
    get_classes meta1 = Ok [controls1; diseases1]
    ∧ get_classes meta2 = Ok [controls2; diseases2]
    ∧ controls1 ≡ₚ controls2 ∧ diseases1 ≡ₚ diseases2.
Proof.
  intros H1 H2 Hsame. eexists _, _, _, _.
  split; [by apply get_classes_unfold|].
  split; [by apply get_classes_unfold|].
  split; apply NoDup_Permutation;
    try apply NoDup_filter, list_set_NoDup;
    intros x; rewrite !list_elem_of_filter, !elem_of_list_set, Hsame; done.
Qed.

Lemma get_classes_depends_on_label_set_witness :
  ∃ controls1 diseases1 controls2 diseases2,
    get_classes ex_meta = Ok [controls1; diseases1]
    ∧ get_classes
        (mkDataFrame (mkSeries [] Object)
           {[ "DiseaseState" :=
                mkSeries [CStr "UC"; CStr "Unknown"; CStr "H"; CStr "UC";
                          CStr "CD"; CStr "H"] Object ]})
      = Ok [controls2; diseases2]
    ∧ controls1 ≡ₚ controls2 ∧ diseases1 ≡ₚ diseases2.
Proof.
  eapply (get_classes_depends_on_label_set ex_meta _
            (mkSeries [CStr "H"; CStr "CD"; CStr "UC"; CStr "Unknown"] Object)
            (mkSeries [CStr "UC"; CStr "Unknown"; CStr "H"; CStr "UC";
                       CStr "CD"; CStr "H"] Object)).
  - reflexivity.
  - apply lookup_singleton_eq.
  - intros x. simpl. rewrite !elem_of_cons, !elem_of_nil. tauto.
Defined.

Lemma get_samples_inv meta classes_list r :
  get_samples meta classes_list = Ok r →
  ∃ col c0 c1,
    columns meta !! "DiseaseState" = Some col
    ∧ classes_list !! 0 = Some c0 ∧ classes_list !! 1 = Some c1
    ∧ r = [mask_select (values (index meta)) (isin col c0);
           mask_select (values (index meta)) (isin col c1)].
Proof.
  unfold get_samples, getitem, dict_getitem, list_getitem.
  destruct (columns meta !! "DiseaseState") as [col|]; [|done]. simpl.
  destruct (classes_list !! 0) as [c0|]; [|done]. simpl.
  destruct (classes_list !! 1) as [c1|]; [|done]. simpl.
  intros [= <-]. by exists col, c0, c1.
Qed.

Lemma mask_select_sublist {A} (xs : list A) (mask : list bool) :
  mask_select xs mask `sublist_of` xs.
Proof.
  revert mask. induction xs as [|x xs IH]; intros [|b mask]; simpl;
    try apply sublist_nil_l.
  destruct b; [by apply sublist_skip|by apply sublist_cons].
Qed.

(** X9: the two lists that [get_samples] returns are taken from the row
    labels of the table in row order: each is a subsequence of the index,
    whatever the classes list is. *)
Theorem get_samples_sublists (meta : DataFrame)
    (classes_list r : list (list cell)) :
  get_samples meta classes_list = Ok r →
  ∃ control_sample_ids disease_sample_ids,
    r = [control_sample_ids; disease_sample_ids]
    ∧ control_sample_ids `sublist_of` values (index meta)
    ∧ disease_sample_ids `sublist_of` values (index meta).
Proof.
  intros (col & c0 & c1 & _ & _ & _ & ->)%get_samples_inv.
  eexists _, _. split; [done|]. split; apply mask_select_sublist.
Qed.

Lemma get_samples_sublists_witness :
  [CStr "s1"] `sublist_of` values (index ex_meta3)
  ∧ [CStr "s2"] `sublist_of` values (index ex_meta3).
Proof.
  destruct (get_samples_sublists ex_meta3 [[CStr "H"]; [CStr "CD"]]
              [[CStr "s1"]; [CStr "s2"]])
    as (h & dis & Heq & Hh & Hdis).
  - vm_compute. reflexivity.
  - injection Heq as <- <-. split; [exact Hh|exact Hdis].
Defined.

(** X10: with the classes list that [get_classes] computes for the table,
    and row labels that are all different, no sample is in both groups. *)
Theorem sample_groups_disjoint (meta : DataFrame)
    (classes_list : list (list cell))
    (control_sample_ids disease_sample_ids : list cell) :
  get_classes meta = Ok classes_list →
  get_samples meta classes_list
    = Ok [control_sample_ids; disease_sample_ids] →
  NoDup (values (index meta)) →
  ∀ i, i ∈ control_sample_ids → i ∈ disease_sample_ids → False.
Proof.
  intros (col & Hcol & ->)%get_classes_inv Hsamples Hnd i.
  erewrite get_samples_unfold in Hsamples;
    [|exact Hcol|reflexivity|reflexivity].
  injection Hsamples as <- <-. rewrite !elem_of_selected.
  intros (k & v & Hi & Hv & Hc) (k' & v' & Hi' & Hv' & Hd).
  assert (k = k') as <- by by eapply NoDup_lookup.
  simplify_eq.
  apply list_elem_of_filter in Hc as [(s & -> & Hs)%py_in_spec%list_elem_of_fmap _].
  apply list_elem_of_filter in Hd as [(s' & [= <-] & Hs')%py_in_spec%list_elem_of_fmap _].
  by eapply vocabularies_disjoint.
Qed.

Lemma sample_groups_disjoint_witness :
  ∃ classes_list control_sample_ids disease_sample_ids,
    get_classes ex_meta3 = Ok classes_list
    ∧ get_samples ex_meta3 classes_list
      = Ok [control_sample_ids; disease_sample_ids]
    ∧ control_sample_ids = [CStr "s1"] ∧ disease_sample_ids = [CStr "s2"]
    ∧ ∀ i, i ∈ control_sample_ids → i ∈ disease_sample_ids → False.
Proof.
  exists [[CStr "H"]; [CStr "CD"]], [CStr "s1"], [CStr "s2"].
  assert (get_classes ex_meta3 = Ok [[CStr "H"]; [CStr "CD"]]) as Hc
    by (vm_compute; reflexivity).
  assert (get_samples ex_meta3 [[CStr "H"]; [CStr "CD"]]
          = Ok [[CStr "s1"]; [CStr "s2"]]) as Hs by (vm_compute; reflexivity).
  split; [exact Hc|]. split; [exact Hs|]. split; [reflexivity|].
  split; [reflexivity|].
  apply (sample_groups_disjoint ex_meta3 _ _ _ Hc Hs).
  apply (bool_decide_unpack _). vm_compute. exact I.
Defined.

(** X11: on a table that has one disease state per row, with the classes
    list that [get_classes] computes for it, a group of samples is empty
    exactly when its list of labels is: the test of the batch aggregator on
    the classes list is a test on the groups. *)
Theorem empty_group_iff_empty_class (meta : DataFrame) (col : Series)
    (matched_controls matched_diseases : list cell)
    (control_sample_ids disease_sample_ids : list cell) :
  columns meta !! "DiseaseState" = Some col →
  length (values (index meta)) = length (values col) →
  get_classes meta = Ok [matched_controls; matched_diseases] →
  get_samples meta [matched_controls; matched_diseases]
    = Ok [control_sample_ids; disease_sample_ids] →
  (control_sample_ids = [] ↔ matched_controls = [])
  ∧ (disease_sample_ids = [] ↔ matched_diseases = []).
Proof.
  intros Hcol Hlen Hclasses Hsamples.
  rewrite (get_classes_unfold _ _ Hcol) in Hclasses.
  injection Hclasses as <- <-.
  erewrite get_samples_unfold in Hsamples;
    [|exact Hcol|reflexivity|reflexivity].
  injection Hsamples as <- <-.
  assert (∀ labels : list cell,
    (∀ x, x ∈ labels → x ∈ values col) →
    (filter (λ r, r.2 ∈ labels)
       (zip (values (index meta)) (values col))).*1 = [] ↔ labels = [])
    as Hiff.
  { intros labels Hsub. split.
    - intros Hnil. destruct labels as [|x labels]; [done|]. exfalso.
      destruct (list_elem_of_lookup_1 _ x (Hsub x (list_elem_of_here _ _)))
        as [k Hk].
      destruct (lookup_lt_is_Some_2 (values (index meta)) k) as [i Hi].
      { rewrite Hlen. by eapply lookup_lt_Some. }
      assert (i ∈ (filter (λ r, r.2 ∈ x :: labels)
                     (zip (values (index meta)) (values col))).*1) as Hin.
      { apply elem_of_selected. exists k, x. split; [done|]. split; [done|].
        apply list_elem_of_here. }
      rewrite Hnil in Hin. by apply elem_of_nil in Hin.
    - intros ->. apply elem_of_nil_inv.
      intros i (k & v & _ & _ & Hv%elem_of_nil)%elem_of_selected. done. }
  split; apply Hiff; intros x [_ Hx]%list_elem_of_filter;
    exact (proj1 (elem_of_list_set _ _) Hx).
Qed.

Lemma empty_group_iff_empty_class_witness :
  get_classes ex_meta3 = Ok [[CStr "H"]; [CStr "CD"]]
  ∧ get_samples ex_meta3 [[CStr "H"]; [CStr "CD"]]
    = Ok [[CStr "s1"]; [CStr "s2"]]
  ∧ ([CStr "s1"] = [] ↔ [CStr "H"] = []).
Proof.
  assert (get_classes ex_meta3 = Ok [[CStr "H"]; [CStr "CD"]]) as Hc
    by (vm_compute; reflexivity).
  assert (get_samples ex_meta3 [[CStr "H"]; [CStr "CD"]]
          = Ok [[CStr "s1"]; [CStr "s2"]]) as Hs by (vm_compute; reflexivity).
  split; [exact Hc|]. split; [exact Hs|].
  apply (empty_group_iff_empty_class ex_meta3
           (mkSeries [CStr "H"; CStr "CD"; CStr "Unknown"] Object)
           _ _ _ _ eq_refl eq_refl Hc Hs).
Defined.

(** X12: on a table with a disease-state column, a classes list with fewer
    than two entries makes [get_samples] raise [IndexError]. *)
Theorem get_samples_short_classes_list (meta : DataFrame) (col : Series)
    (classes_list : list (list cell)) :
  columns meta !! "DiseaseState" = Some col →
  (length classes_list < 2)%nat →
  get_samples meta classes_list = Raise IndexError.
Proof.
  intros Hcol Hlen. unfold get_samples, getitem, dict_getitem, list_getitem.
  rewrite Hcol. simpl.
  destruct classes_list as [|c0 [|c1 rest]]; simpl in *; [done|done|lia].
Qed.

Lemma get_samples_short_classes_list_witness :
  get_samples ex_meta3 [] = Raise IndexError
  ∧ get_samples ex_meta3 [[CStr "H"]] = Raise IndexError.
Proof.
  split.
  - apply (get_samples_short_classes_list ex_meta3
             (mkSeries [CStr "H"; CStr "CD"; CStr "Unknown"] Object));
      [reflexivity|simpl; lia].
  - apply (get_samples_short_classes_list ex_meta3
             (mkSeries [CStr "H"; CStr "CD"; CStr "Unknown"] Object));
      [reflexivity|simpl; lia].
Defined.

(** ** More on [read_dfdict_data] *)

Lemma read_dfdict_step_ok_inv P E raw2abun datadir dfdict d out dfdict' out' :
  read_dfdict_step P E raw2abun datadir dfdict d out = (Ok dfdict', out') →
  out' = out ++ [d]
  ∧ ∃ b, dfdict' = <[d := b]> dfdict ∧ loaded_bundle P E raw2abun datadir d b.
Proof.
  unfold read_dfdict_step. io_unfold.
  destruct (read_dataset_files P E d datadir) as [[raw md]|e] eqn:Hread;
    [|done].
  destruct (raw2abun raw) as [norm|e] eqn:Hnorm; [|done].
  destruct (get_classes md) as [cl|e] eqn:Hcl; [|done].
  pose proof Hcl as (col & Hcol & ->)%get_classes_inv. simpl.
  set (c0 := filter (λ i, py_in i controls) _) in *.
  set (c1 := filter (λ j, py_in j diseases) _) in *.
  destruct (decide (length c0 = 0)) as [|Hc0]; [done|]. simpl.
  destruct (bool_decide (length c1 = 0)) eqn:Hc1; [done|].
  apply bool_decide_eq_false in Hc1.
  erewrite get_samples_unfold; [|exact Hcol|reflexivity|reflexivity]. simpl.
  intros [= <- <-]. split; [done|].
  eexists (mkBundle norm md _ _ [c0; c1]). split; [done|].
  exists raw. simpl. split; [done|]. split; [done|]. split; [done|].
  split; [by erewrite get_samples_unfold|].
  exists c0, c1. split; [done|]. by split; intros ->.
Qed.

Lemma read_dfdict_step_ok P E raw2abun datadir dfdict d out raw md norm c0 c1 :
  read_dataset_files P E d datadir = Ok (raw, md) →
  raw2abun raw = Ok norm →
  get_classes md = Ok [c0; c1] →
  c0 ≠ [] → c1 ≠ [] →
  ∃ b, read_dfdict_step P E raw2abun datadir dfdict d out
       = (Ok (<[d := b]> dfdict), out ++ [d])
    ∧ df b = norm ∧ meta b = md ∧ classes b = [c0; c1].
Proof.
  intros Hread Hnorm Hcl Hc0 Hc1. unfold read_dfdict_step. io_unfold.
  rewrite Hread, Hnorm, Hcl. simpl.
  pose proof Hcl as (col & Hcol & [= -> ->])%get_classes_inv.
  set (c0 := filter (λ i, py_in i controls) _) in *.
  set (c1 := filter (λ j, py_in j diseases) _) in *.
  rewrite decide_False by (by destruct c0). simpl.
  rewrite bool_decide_eq_false_2 by (by destruct c1).
  erewrite get_samples_unfold; [|exact Hcol|reflexivity|reflexivity]. simpl.
  by eexists (mkBundle norm md _ _ [c0; c1]).
Qed.

Lemma read_dfdict_step_raises P E raw2abun datadir dfdict d out e :
  read_dataset_files P E d datadir = Raise e
  ∨ (∃ raw md, read_dataset_files P E d datadir = Ok (raw, md)
       ∧ (raw2abun raw = Raise e
          ∨ (∃ norm, raw2abun raw = Ok norm) ∧ get_classes md = Raise e)) →
  read_dfdict_step P E raw2abun datadir dfdict d out = (Raise e, out ++ [d]).
Proof.
  unfold read_dfdict_step. io_unfold.
  intros [->|(raw & md & -> & [->|[[norm ->] ->]])]; done.
Qed.

Lemma read_dfdict_loop_ok_inv P E raw2abun datadir ids dfdict0 out dfdict out' :
  for_each (read_dfdict_step P E raw2abun datadir) ids dfdict0 out
    = (Ok dfdict, out') →
  out' = out ++ ids
  ∧ (∀ d, d ∉ ids → dfdict !! d = dfdict0 !! d)
  ∧ (∀ d, d ∈ ids →
       ∃ b, dfdict !! d = Some b ∧ loaded_bundle P E raw2abun datadir d b).
Proof.
  revert dfdict0 out. induction ids as [|d ids IH]; intros dfdict0 out.
  { intros [= <- <-]. rewrite app_nil_r. split; [done|]. split; [done|].
    by intros d ?%elem_of_nil. }
  rewrite for_each_cons.
  destruct (read_dfdict_step P E raw2abun datadir dfdict0 d out)
    as [[dfdict1|e] out1] eqn:Hstep; [|done].
  apply read_dfdict_step_ok_inv in Hstep as (-> & b & -> & Hb).
  intros (-> & Hout & Hin)%IH. split; [by rewrite <-app_assoc|]. split.
  - intros d' [Hne Hd']%not_elem_of_cons.
    by rewrite Hout, lookup_insert_ne.
  - intros d' Hd'. destruct (decide (d' ∈ ids)) as [Hids|Hids]; [by apply Hin|].
    apply elem_of_cons in Hd' as [->|?]; [|done].
    exists b. split; [|done]. by rewrite Hout, lookup_insert_eq.
Qed.

Lemma read_dfdict_loop_ok P E raw2abun datadir ids dfdict0 out :
  (∀ d, d ∈ ids → ∃ raw md norm c0 c1,
     read_dataset_files P E d datadir = Ok (raw, md)
     ∧ raw2abun raw = Ok norm
     ∧ get_classes md = Ok [c0; c1] ∧ c0 ≠ [] ∧ c1 ≠ []) →
  ∃ dfdict,
    for_each (read_dfdict_step P E raw2abun datadir) ids dfdict0 out
    = (Ok dfdict, out ++ ids).
Proof.
  revert dfdict0 out. induction ids as [|d ids IH]; intros dfdict0 out Hall.
  { exists dfdict0. by rewrite app_nil_r. }
  destruct (Hall d) as (raw & md & norm & c0 & c1 & Hread & Hnorm & Hcl & ? & ?);
    [apply list_elem_of_here|].
  destruct (read_dfdict_step_ok P E raw2abun datadir dfdict0 d out
              _ _ _ _ _ Hread Hnorm Hcl) as (b & Hstep & _); [done..|].
  rewrite for_each_cons, Hstep.
  destruct (IH (<[d := b]> dfdict0) (out ++ [d])) as [dfdict Hloop].
  { intros d' Hd'. apply Hall. by apply list_elem_of_further. }
  exists dfdict. by rewrite Hloop, <-app_assoc.
Qed.

Lemma read_dfdict_data_unfold P E raw2abun datadir ids out :
  get_dataset_ids E datadir = Ok ids →
  read_dfdict_data P E raw2abun datadir out
  = match for_each (read_dfdict_step P E raw2abun datadir) ids ∅
            (out ++ ["Reading datasets..."]) with
    | (Ok dfdict, out') =>
        (Ok dfdict, out' ++ [String "010" "Reading datasets... Finished."])
    | (Raise e, out') => (Raise e, out')
    end.
Proof.
  intros Hids. unfold read_dfdict_data. io_unfold. rewrite Hids.
  by destruct (for_each _ _ _ _) as [[?|?] ?].
Qed.

(** X13: when every dataset of the directory loads, is normalised and has
    a control label and a disease label among its disease states, the batch
    aggregator returns a mapping whose keys are exactly the dataset ids,
    and prints the opening line, each id in turn and the closing line. *)
Theorem read_dfdict_data_succeeds (P : pandas_reader) (E : os_env)
    (raw2abun : DataFrame → result DataFrame) (datadir : string)
    (ids : list string) (out : list string) :
  get_dataset_ids E datadir = Ok ids →
  (∀ d, d ∈ ids → ∃ raw md norm c0 c1,
     read_dataset_files P E d datadir = Ok (raw, md)
     ∧ raw2abun raw = Ok norm
     ∧ get_classes md = Ok [c0; c1] ∧ c0 ≠ [] ∧ c1 ≠ []) →
  ∃ dfdict,
    read_dfdict_data P E raw2abun datadir out
    = (Ok dfdict,
       out ++ ["Reading datasets..."] ++ ids
           ++ [String "010" "Reading datasets... Finished."])
    ∧ ∀ d, is_Some (dfdict !! d) ↔ d ∈ ids.
Proof.
  intros Hids Hall.
  destruct (read_dfdict_loop_ok P E raw2abun datadir ids ∅
              (out ++ ["Reading datasets..."]) Hall) as [dfdict Hloop].
  exists dfdict. split.
  - rewrite (read_dfdict_data_unfold _ _ _ _ ids) by done.
    rewrite Hloop. by rewrite <-!app_assoc.
  - apply read_dfdict_loop_ok_inv in Hloop as (_ & Hout & Hin).
    intros d. split.
    + intros Hd. destruct (decide (d ∈ ids)) as [|Hnot]; [done|].
      rewrite (Hout d Hnot), lookup_empty in Hd. by destruct Hd.
    + intros (b & -> & _)%Hin. by eexists.
Qed.

(** The dataset [A] of the example is complete and has both groups. *)
Lemma ex_dataset_A_valid d :
  d ∈ ["A"] →
  ∃ raw md norm c0 c1,
    read_dataset_files int_reader ex_env d "clean" = Ok (raw, md)
    ∧ ex_raw2abun raw = Ok norm
    ∧ get_classes md = Ok [c0; c1] ∧ c0 ≠ [] ∧ c1 ≠ [].
Proof.
  intros ->%list_elem_of_singleton.
  destruct (read_dataset_files_ok int_reader ex_env "A" "clean"
              (mkTsv ["1001"; "1002"; "1003"]
                 {[ "OTU1" := ["3"; "0"; "4"]; "OTU2" := ["5"; "7"; "1"] ]})
              (mkTsv ["1001"; "1002"; "1003"]
                 {[ "DiseaseState" := ["H"; "CD"; "Unknown"] ]})
              eq_refl eq_refl)
    as (raw & md & Hok & _ & _ & _ & _ & _ & Hcols).
  assert (columns md !! "DiseaseState"
          = Some (mkSeries [CStr "H"; CStr "CD"; CStr "Unknown"] Object))
    as Hcol.
  { rewrite Hcols. simpl. rewrite map_fmap_singleton.
    by rewrite lookup_singleton_eq. }
  exists raw, md, raw. eexists _, _. split; [exact Hok|]. split; [done|].
  split; [by apply get_classes_unfold|]. simpl.
  split; intros Hnil.
  - assert (CStr "H" ∈ filter (λ i, py_in i controls)
              (list_set [CStr "H"; CStr "CD"; CStr "Unknown"])) as Hin.
    { apply list_elem_of_filter. split; [done|].
      apply elem_of_list_set, list_elem_of_here. }
    rewrite Hnil in Hin. by apply elem_of_nil in Hin.
  - assert (CStr "CD" ∈ filter (λ i, py_in i diseases)
              (list_set [CStr "H"; CStr "CD"; CStr "Unknown"])) as Hin.
    { apply list_elem_of_filter. split; [done|].
      apply elem_of_list_set, list_elem_of_further, list_elem_of_here. }
    rewrite Hnil in Hin. by apply elem_of_nil in Hin.
Qed.

Lemma read_dfdict_data_succeeds_witness :
  ∃ dfdict,
    read_dfdict_data int_reader ex_env ex_raw2abun "clean" []
    = (Ok dfdict,
       ["Reading datasets..."; "A";
        String "010" "Reading datasets... Finished."])
    ∧ is_Some (dfdict !! "A") ∧ dfdict !! "B" = None.
Proof.
  destruct (read_dfdict_data_succeeds int_reader ex_env ex_raw2abun "clean"
              ["A"] [] ltac:(vm_compute; reflexivity) ex_dataset_A_valid)
    as (dfdict & Hrun & Hkeys).
  exists dfdict. split; [exact Hrun|]. split.
  - apply Hkeys, list_elem_of_here.
  - destruct (dfdict !! "B") eqn:HB; [|reflexivity].
    assert ("B" ∈ ["A"]) as Hin by (apply Hkeys; by eexists).
    apply list_elem_of_singleton in Hin. discriminate Hin.
Defined.

(** X14: in a mapping that the batch aggregator returns, the keys are the
    dataset ids of the directory, and the bundle of each holds the metadata
    as loaded, the abundance table as loaded and normalised, the classes
    that [get_classes] gives for that metadata, neither of them empty, and
    the two groups that [get_samples] gives for them. *)
Theorem read_dfdict_data_bundles (P : pandas_reader) (E : os_env)
    (raw2abun : DataFrame → result DataFrame) (datadir : string)
    (dfdict : gmap string bundle) (out out' : list string) :
  read_dfdict_data P E raw2abun datadir out = (Ok dfdict, out') →
  ∃ ids,
    get_dataset_ids E datadir = Ok ids
    ∧ out' = out ++ ["Reading datasets..."] ++ ids
                 ++ [String "010" "Reading datasets... Finished."]
    ∧ (∀ d, is_Some (dfdict !! d) ↔ d ∈ ids)
    ∧ ∀ d b, dfdict !! d = Some b → loaded_bundle P E raw2abun datadir d b.
Proof.
  destruct (get_dataset_ids E datadir) as [ids|e] eqn:Hids.
  - rewrite (read_dfdict_data_unfold _ _ _ _ ids) by done.
    destruct (for_each _ _ _ _) as [[dfdict1|e] out1] eqn:Hloop; [|done].
    intros [= <- <-].
    apply read_dfdict_loop_ok_inv in Hloop as (-> & Hout & Hin).
    exists ids. split; [done|]. split; [by rewrite <-!app_assoc|].
    assert (∀ d, is_Some (dfdict1 !! d) ↔ d ∈ ids) as Hkeys.
    { intros d. split.
      - intros Hd. destruct (decide (d ∈ ids)) as [|Hnot]; [done|].
        rewrite (Hout d Hnot), lookup_empty in Hd. by destruct Hd.
      - intros (b & -> & _)%Hin. by eexists. }
    split; [done|]. intros d b Hb.
    destruct (Hin d) as (b' & Hb' & Hbundle); [apply Hkeys; by eexists|].
    by simplify_eq.
  - unfold read_dfdict_data. io_unfold. by rewrite Hids.
Qed.

Lemma read_dfdict_data_bundles_witness :
  ∃ dfdict out' b,
    read_dfdict_data int_reader ex_env ex_raw2abun "clean" []
      = (Ok dfdict, out')
    ∧ dfdict !! "A" = Some b
    ∧ get_classes (meta b) = Ok (classes b)
    ∧ get_samples (meta b) (classes b) = Ok [H_smpls b; dis_smpls b].
Proof.
  destruct (read_dfdict_loop_ok int_reader ex_env ex_raw2abun "clean" ["A"] ∅
              ([] ++ ["Reading datasets..."]) ex_dataset_A_valid)
    as [dfdict Hloop].
  assert (read_dfdict_data int_reader ex_env ex_raw2abun "clean" []
          = (Ok dfdict,
             (([] ++ ["Reading datasets..."]) ++ ["A"])
               ++ [String "010" "Reading datasets... Finished."])) as Hrun.
  { rewrite (read_dfdict_data_unfold _ _ _ _ ["A"])
      by (vm_compute; reflexivity).
    by rewrite Hloop. }
  destruct (read_dfdict_data_bundles _ _ _ _ _ _ _ Hrun)
    as (ids & _ & _ & Hkeys & Hbundles).
  destruct (dfdict !! "A") as [b|] eqn:HA.
  - destruct (Hbundles "A" b HA) as (raw & _ & _ & Hcl & Hs & _).
    eexists dfdict, _, b. split; [exact Hrun|]. split; [exact HA|].
    split; [exact Hcl|exact Hs].
  - exfalso. apply read_dfdict_loop_ok_inv in Hloop as (_ & _ & Hin).
    destruct (Hin "A") as (b & Hb & _); [apply list_elem_of_here|].
    congruence.
Defined.

(** X15: when the datasets met before a dataset were processed, an error
    of the loader, of the normalisation or of [get_classes] on that dataset
    is the error of the batch aggregator, raised right after the name of
    the dataset is printed; the datasets after it play no part. *)
Theorem read_dfdict_data_propagates_errors (P : pandas_reader) (E : os_env)
    (raw2abun : DataFrame → result DataFrame) (datadir : string)
    (before after : list string) (d : string) (e : exn)
    (dfdict : gmap string bundle) (out out' : list string) :
  get_dataset_ids E datadir = Ok (before ++ d :: after) →
  for_each (read_dfdict_step P E raw2abun datadir) before ∅
    (out ++ ["Reading datasets..."]) = (Ok dfdict, out') →
  read_dataset_files P E d datadir = Raise e
  ∨ (∃ raw md, read_dataset_files P E d datadir = Ok (raw, md)
       ∧ (raw2abun raw = Raise e
          ∨ (∃ norm, raw2abun raw = Ok norm) ∧ get_classes md = Raise e)) →
  read_dfdict_data P E raw2abun datadir out = (Raise e, out' ++ [d]).
Proof.
  intros Hids Hbefore Hcause.
  rewrite (read_dfdict_data_unfold _ _ _ _ _ _ Hids).
  rewrite for_each_app, Hbefore, for_each_cons.
  by rewrite (read_dfdict_step_raises _ _ _ _ _ _ _ e Hcause).
Qed.

Lemma read_dfdict_data_propagates_errors_witness :
  read_dfdict_data int_reader ex_env
    (λ _, Raise (ValueError "normalisation failed")) "clean" []
  = (Raise (ValueError "normalisation failed"), ["Reading datasets..."; "A"]).
Proof.
  destruct (read_dataset_files_ok int_reader ex_env "A" "clean"
              (mkTsv ["1001"; "1002"; "1003"]
                 {[ "OTU1" := ["3"; "0"; "4"]; "OTU2" := ["5"; "7"; "1"] ]})
              (mkTsv ["1001"; "1002"; "1003"]
                 {[ "DiseaseState" := ["H"; "CD"; "Unknown"] ]})
              eq_refl eq_refl)
    as (raw & md & Hok & _).
  apply (read_dfdict_data_propagates_errors int_reader ex_env _
           "clean" [] [] "A" _ ∅ [] ["Reading datasets..."]).
  - vm_compute. reflexivity.
  - reflexivity.
  - right. exists raw, md. split; [exact Hok|]. by left.
Defined.

(** X16: a directory that cannot be listed: the error of the listing is
    the error of [get_dataset_ids] and of the batch aggregator, which has
    printed its opening line by then and nothing else. *)
Theorem unlistable_directory (P : pandas_reader) (E : os_env)
    (raw2abun : DataFrame → result DataFrame) (datadir : string) (e : exn)
    (out : list string) :
  listdir E datadir = Raise e →
  get_dataset_ids E datadir = Raise e
  ∧ read_dfdict_data P E raw2abun datadir out
    = (Raise e, out ++ ["Reading datasets..."]).
Proof.
  intros Hls.
  assert (get_dataset_ids E datadir = Raise e) as Hids.
  { unfold get_dataset_ids. by rewrite Hls. }
  split; [done|]. unfold read_dfdict_data. io_unfold. by rewrite Hids.
Qed.

Lemma unlistable_directory_witness :
  get_dataset_ids ex_env "nowhere" = Raise (OSError "nowhere")
  ∧ read_dfdict_data int_reader ex_env ex_raw2abun "nowhere" []
    = (Raise (OSError "nowhere"), ["Reading datasets..."]).
Proof.
  apply (unlistable_directory int_reader ex_env ex_raw2abun "nowhere"
           (OSError "nowhere") []).
  reflexivity.
Defined.
